(** * archer-controller: the reconciler of [pkg/controller], embedded in Rocq

    The development follows [service_controller.go] and [util.go]:
    the annotation helpers, [getBodyFromService], [serviceEqual] and the
    [Reconcile] procedure with its create / update / delete helpers.

    Go values are modelled as the code has them: maps as [gmap] wrapped in
    an [option] (a Go map may be nil), pointers to scalars as [option],
    slices as lists, [int32] as [Z] with its wrap-around written out.  The
    cluster API and the Archer client are collaborators of the reconciler;
    they are taken as functions over an abstract world, and every call to
    them is recorded in a trace. *)

From Stdlib Require Import ZArith Ascii String List Permutation Bool Lia.
From stdpp Require Import base option list gmap strings.

Local Open Scope string_scope.
Local Open Scope list_scope.
Local Open Scope Z_scope.

(** ** Outcomes of Go code *)

(** Run-time panics the embedded code can raise. *)
Inductive panic : Type :=
| NilPointerDereference
| AssignmentToNilMap.

(** Errors returned through Go's [error] results. *)
Inductive error : Type :=
| ErrSyntax (fn s : string)          (* strconv.NumError with ErrSyntax *)
| ErrRange (fn s : string)           (* strconv.NumError with ErrRange *)
| ErrNoPorts (ns name : string)      (* "service %s/%s has no ports" *)
| ErrMultiple (ns name : string)     (* "multiple endpoint services found ..." *)
| ErrNotFound                        (* apierrors.IsNotFound *)
| ErrApi (code : nat).               (* any other error of a collaborator *)

(** A Go call either returns normally, returns a non-nil error, or panics. *)
Inductive outcome (A : Type) : Type :=
| Ok (a : A)
| Err (e : error)
| Panic (p : panic).
Arguments Ok {A} a.
Arguments Err {A} e.
Arguments Panic {A} p.

Definition obind {A B} (m : outcome A) (f : A -> outcome B) : outcome B :=
  match m with
  | Ok a => f a
  | Err e => Err e
  | Panic p => Panic p
  end.

(** ** Data model *)

(** [corev1.ServicePort], reduced to the field the controller reads. *)
Record ServicePort : Type := { Port : Z }.

(** [corev1.Service]: object metadata and the part of the spec in use.
    [Annotations] is [None] for a nil map. *)
Record K8sService : Type := {
  Namespace : string;
  Name : string;
  UID : string;
  Annotations : option (gmap string string);
  Finalizers : list string;
  DeletionTimestamp : option Z;
  ClusterIP : string;
  Ports : list ServicePort
}.

(** [models.Service] of the Archer client.  Pointer fields are options. *)
Record Service : Type := {
  sID : string;
  sName : string;
  sDescription : string;
  sEnabled : option bool;
  sIPAddresses : list string;
  sNetworkID : option string;
  sPort : Z;
  sProxyProtocol : option bool;
  sRequireApproval : option bool;
  sTags : list string;
  sAvailabilityZone : option string;
  sVisibility : option string
}.

(** [models.ServiceUpdatable]. *)
Record ServiceUpdatable : Type := {
  uDescription : option string;
  uEnabled : option bool;
  uIPAddresses : list string;
  uName : option string;
  uPort : option Z;
  uProxyProtocol : option bool;
  uRequireApproval : option bool;
  uTags : list string;
  uVisibility : option string
}.

(** [ArcherServiceReconciler], configuration fields. *)
Record Reconciler : Type := {
  NetworkID : string;
  AnnotationKey : string
}.

(** Annotation suffixes. *)
Definition AnnotationEndpointServiceCreate := "archer-create".
Definition AnnotationEndpointServiceNetwork := "archer-network-id".
Definition AnnotationEndpointServiceName := "archer-service-name".
Definition AnnotationEndpointServiceProxyProtocol := "archer-proxy-protocol".
Definition AnnotationEndpointServiceVisibility := "archer-visibility".
Definition AnnotationEndpointServiceRequireApproval := "archer-require-approval".
Definition AnnotationEndpointServiceTags := "archer-tags".
Definition AnnotationEndpointServiceAvailabilityZone := "archer-availability-zone".
Definition AnnotationEndpointServicePort := "archer-port".

(** ** util.go *)

(** [fmt.Sprintf("%s/%s", prefix, annotationKey)]. *)
Definition makeAnnotation (prefix annotationKey : string) : string :=
  prefix +:+ "/" +:+ annotationKey.

Definition getAnnotationBoolean (key : string) (svc : K8sService) (_default : bool) : bool :=
  match Annotations svc with
  | None => _default
  | Some m =>
      match m !! key with
      | None => _default
      | Some v => String.eqb v "true"
      end
  end.

(** The pair [(v, ok)] is an option: [None] stands for [("", false)]. *)
Definition getAnnotationString (key : string) (svc : K8sService) : option string :=
  match Annotations svc with
  | None => None
  | Some m => m !! key
  end.

(** ** serviceEqual *)

(** Inner loop over the remote addresses: [found] is set, never reset, and
    the loop does not break. [fmt.Sprint(ip2, "/32")] concatenates, both
    operands being of string kind. *)
Definition ipFound (ip : string) (ips2 : list string) : bool :=
  fold_left
    (fun found ip2 =>
       if String.eqb ip ip2 || String.eqb ip (ip2 +:+ "/32") then true else found)
    ips2 false.

(** Outer loop: the first desired address that is not found returns false. *)
Fixpoint ipsAllFound (ips1 ips2 : list string) : bool :=
  match ips1 with
  | [] => true
  | ip :: rest => if ipFound ip ips2 then ipsAllFound rest ips2 else false
  end.

Definition tagFound (tag : string) (tags2 : list string) : bool :=
  fold_left (fun found tag2 => if String.eqb tag tag2 then true else found)
    tags2 false.

Fixpoint tagsAllFound (tags1 tags2 : list string) : bool :=
  match tags1 with
  | [] => true
  | tag :: rest => if tagFound tag tags2 then tagsAllFound rest tags2 else false
  end.

(** The two address statements of [serviceEqual] (length test, then loops):
    [true] when the function goes on to the next field. *)
Definition ipAddressesEqual (ips1 ips2 : list string) : bool :=
  if negb (Nat.eqb (length ips1) (length ips2)) then false
  else ipsAllFound ips1 ips2.

(** The two tag statements of [serviceEqual]. *)
Definition tagsEqual (tags1 tags2 : list string) : bool :=
  if negb (Nat.eqb (length tags1) (length tags2)) then false
  else tagsAllFound tags1 tags2.

(** [p1 != nil && p2 != nil && *p1 != *p2] *)
Definition bothSetAndDiffer {A} (eqb : A -> A -> bool) (p1 p2 : option A) : bool :=
  match p1, p2 with
  | Some a, Some b => negb (eqb a b)
  | _, _ => false
  end.

(** [s1.Enabled != nil && *s1.Enabled != *s2.Enabled]: the right operand
    dereferences [s2.Enabled] without a test. *)
Definition enabledDiffer (e1 e2 : option bool) : outcome bool :=
  match e1 with
  | None => Ok false
  | Some a =>
      match e2 with
      | None => Panic NilPointerDereference
      | Some b => Ok (negb (Bool.eqb a b))
      end
  end.

Definition serviceEqual (s1 s2 : Service) : outcome bool :=
  if negb (String.eqb (sName s1) (sName s2)) then Ok false else
  if negb (String.eqb (sDescription s1) (sDescription s2)) then Ok false else
  obind (enabledDiffer (sEnabled s1) (sEnabled s2)) (fun d =>
  if d then Ok false else
  if negb (ipAddressesEqual (sIPAddresses s1) (sIPAddresses s2)) then Ok false else
  if bothSetAndDiffer String.eqb (sNetworkID s1) (sNetworkID s2) then Ok false else
  if negb (Z.eqb (sPort s1) (sPort s2)) then Ok false else
  if bothSetAndDiffer Bool.eqb (sProxyProtocol s1) (sProxyProtocol s2) then Ok false else
  if bothSetAndDiffer Bool.eqb (sRequireApproval s1) (sRequireApproval s2) then Ok false else
  if negb (tagsEqual (sTags s1) (sTags s2)) then Ok false else
  if bothSetAndDiffer String.eqb (sVisibility s1) (sVisibility s2) then Ok false else
  Ok true).

(** ** Library functions used by getBodyFromService *)

(** [int32(p)]: conversion of a Go [int] keeps the low 32 bits, signed. *)
Definition int32 (p : Z) : Z := (p + 2 ^ 31) mod 2 ^ 32 - 2 ^ 31.

(** A decimal digit of [strconv]: the byte minus ['0'], at most 9. *)
Definition digitOf (ch : ascii) : option Z :=
  let n := Z.of_nat (nat_of_ascii ch) in
  if (48 <=? n) && (n <=? 57) then Some (n - 48) else None.

Inductive scan : Type :=
| ScanOk (n : Z)
| ScanSyntax
| ScanRange.

(** The digit loop of [strconv.ParseUint(s, 10, 64)]: a byte that is not a
    digit is a syntax error, leaving the 64-bit unsigned range is a range
    error, whichever comes first. *)
Fixpoint scanDigits (s : string) (n : Z) : scan :=
  match s with
  | EmptyString => ScanOk n
  | String ch s' =>
      match digitOf ch with
      | None => ScanSyntax
      | Some d =>
          if n >=? (2 ^ 64 - 1) / 10 + 1 then ScanRange
          else if n * 10 + d >? 2 ^ 64 - 1 then ScanRange
          else scanDigits s' (n * 10 + d)
      end
  end.

(** [strconv.Atoi] on a 64-bit platform: an optional sign, then one or more
    decimal digits, the value within the range of [int]. *)
Definition Atoi (s : string) : outcome Z :=
  match s with
  | EmptyString => Err (ErrSyntax "Atoi" s)
  | String c rest =>
      let neg := Ascii.eqb c "-"%char in
      let digits := if neg || Ascii.eqb c "+"%char then rest else s in
      match digits with
      | EmptyString => Err (ErrSyntax "Atoi" s)
      | _ =>
          match scanDigits digits 0 with
          | ScanSyntax => Err (ErrSyntax "Atoi" s)
          | ScanRange => Err (ErrRange "Atoi" s)
          | ScanOk un =>
              if negb neg && (un >=? 2 ^ 63) then Err (ErrRange "Atoi" s)
              else if neg && (un >? 2 ^ 63) then Err (ErrRange "Atoi" s)
              else Ok (if neg then - un else un)
          end
      end
  end.

(** [strings.Split(s, sep)] for a separator of one byte: the pieces between
    the occurrences of [sep], in order; a string without [sep] is returned
    whole, the empty string gives one empty piece. *)
Fixpoint Split (s : string) (sep : ascii) : list string :=
  match s with
  | EmptyString => [EmptyString]
  | String c s' =>
      if Ascii.eqb c sep then EmptyString :: Split s' sep
      else
        match Split s' sep with
        | piece :: pieces => String c piece :: pieces
        | [] => [String c EmptyString]
        end
  end.

(** ** getBodyFromService *)

Definition setPort (b : Service) (p : Z) : Service :=
  {| sID := sID b; sName := sName b; sDescription := sDescription b;
     sEnabled := sEnabled b; sIPAddresses := sIPAddresses b;
     sNetworkID := sNetworkID b; sPort := p;
     sProxyProtocol := sProxyProtocol b; sRequireApproval := sRequireApproval b;
     sTags := sTags b; sAvailabilityZone := sAvailabilityZone b;
     sVisibility := sVisibility b |}.

Definition setName (b : Service) (n : string) : Service :=
  {| sID := sID b; sName := n; sDescription := sDescription b;
     sEnabled := sEnabled b; sIPAddresses := sIPAddresses b;
     sNetworkID := sNetworkID b; sPort := sPort b;
     sProxyProtocol := sProxyProtocol b; sRequireApproval := sRequireApproval b;
     sTags := sTags b; sAvailabilityZone := sAvailabilityZone b;
     sVisibility := sVisibility b |}.

Definition setNetworkID (b : Service) (n : option string) : Service :=
  {| sID := sID b; sName := sName b; sDescription := sDescription b;
     sEnabled := sEnabled b; sIPAddresses := sIPAddresses b;
     sNetworkID := n; sPort := sPort b;
     sProxyProtocol := sProxyProtocol b; sRequireApproval := sRequireApproval b;
     sTags := sTags b; sAvailabilityZone := sAvailabilityZone b;
     sVisibility := sVisibility b |}.

Definition setProxyProtocol (b : Service) (v : option bool) : Service :=
  {| sID := sID b; sName := sName b; sDescription := sDescription b;
     sEnabled := sEnabled b; sIPAddresses := sIPAddresses b;
     sNetworkID := sNetworkID b; sPort := sPort b;
     sProxyProtocol := v; sRequireApproval := sRequireApproval b;
     sTags := sTags b; sAvailabilityZone := sAvailabilityZone b;
     sVisibility := sVisibility b |}.

Definition setRequireApproval (b : Service) (v : option bool) : Service :=
  {| sID := sID b; sName := sName b; sDescription := sDescription b;
     sEnabled := sEnabled b; sIPAddresses := sIPAddresses b;
     sNetworkID := sNetworkID b; sPort := sPort b;
     sProxyProtocol := sProxyProtocol b; sRequireApproval := v;
     sTags := sTags b; sAvailabilityZone := sAvailabilityZone b;
     sVisibility := sVisibility b |}.

Definition setTags (b : Service) (ts : list string) : Service :=
  {| sID := sID b; sName := sName b; sDescription := sDescription b;
     sEnabled := sEnabled b; sIPAddresses := sIPAddresses b;
     sNetworkID := sNetworkID b; sPort := sPort b;
     sProxyProtocol := sProxyProtocol b; sRequireApproval := sRequireApproval b;
     sTags := ts; sAvailabilityZone := sAvailabilityZone b;
     sVisibility := sVisibility b |}.

Definition setAvailabilityZone (b : Service) (z : option string) : Service :=
  {| sID := sID b; sName := sName b; sDescription := sDescription b;
     sEnabled := sEnabled b; sIPAddresses := sIPAddresses b;
     sNetworkID := sNetworkID b; sPort := sPort b;
     sProxyProtocol := sProxyProtocol b; sRequireApproval := sRequireApproval b;
     sTags := sTags b; sAvailabilityZone := z;
     sVisibility := sVisibility b |}.

Definition setVisibility (b : Service) (v : option string) : Service :=
  {| sID := sID b; sName := sName b; sDescription := sDescription b;
     sEnabled := sEnabled b; sIPAddresses := sIPAddresses b;
     sNetworkID := sNetworkID b; sPort := sPort b;
     sProxyProtocol := sProxyProtocol b; sRequireApproval := sRequireApproval b;
     sTags := sTags b; sAvailabilityZone := sAvailabilityZone b;
     sVisibility := v |}.

(** The composite literal that opens [getBodyFromService]; the fields it
    leaves out have their zero value. *)
Definition initialBody (r : Reconciler) (svc : K8sService) : Service :=
  {| sID := "";
     sName := Namespace svc +:+ "-" +:+ Name svc;
     sDescription := "Kubernetes service " +:+ Namespace svc +:+ "/" +:+ Name svc;
     sEnabled := None;
     sIPAddresses := [ClusterIP svc];
     sNetworkID := Some (NetworkID r);
     sPort := 0;
     sProxyProtocol := None;
     sRequireApproval := None;
     sTags := ["kubernetes"; UID svc];
     sAvailabilityZone := None;
     sVisibility := Some "public" |}.

(** The port statement: annotation first, then the first declared port. *)
Definition bodyPort (r : Reconciler) (svc : K8sService) : outcome Z :=
  match getAnnotationString (makeAnnotation (AnnotationKey r) AnnotationEndpointServicePort) svc with
  | Some port => obind (Atoi port) (fun p => Ok (int32 p))
  | None =>
      match Ports svc with
      | p0 :: _ => Ok (Port p0)
      | [] => Err (ErrNoPorts (Namespace svc) (Name svc))
      end
  end.

Definition getBodyFromService (r : Reconciler) (svc : K8sService) : outcome Service :=
  let key := makeAnnotation (AnnotationKey r) in
  let body := initialBody r svc in
  obind (bodyPort r svc) (fun p =>
  let body := setPort body p in
  let body :=
    match getAnnotationString (key AnnotationEndpointServiceName) svc with
    | Some name => setName body name
    | None => body
    end in
  let body :=
    match getAnnotationString (key AnnotationEndpointServiceNetwork) svc with
    | Some network => setNetworkID body (Some network)
    | None => body
    end in
  let body :=
    if getAnnotationBoolean (key AnnotationEndpointServiceProxyProtocol) svc false
    then setProxyProtocol body (Some true) else body in
  let body :=
    if getAnnotationBoolean (key AnnotationEndpointServiceRequireApproval) svc false
    then setRequireApproval body (Some true) else body in
  let body :=
    match getAnnotationString (key AnnotationEndpointServiceTags) svc with
    | Some tags => setTags body (sTags body ++ Split tags " "%char)
    | None => body
    end in
  let body :=
    match getAnnotationString (key AnnotationEndpointServiceAvailabilityZone) svc with
    | Some zone => setAvailabilityZone body (Some zone)
    | None => body
    end in
  let body :=
    match getAnnotationString (key AnnotationEndpointServiceVisibility) svc with
    | Some visibility => setVisibility body (Some visibility)
    | None => body
    end in
  Ok body).

(** ** Collaborators and the state of one reconcile *)

(** Calls made to the cluster API ([client.Client]) and to the Archer
    client, with their arguments, in the order they are issued. *)
Inductive Event : Type :=
| EvGet (ns name : string)
| EvUpdate (svc : K8sService)
| EvGetService (tags : list string)
| EvPostService (body : Service)
| EvPutService (id : string) (b : ServiceUpdatable)
| EvDeleteService (id : string).

(** The collaborators answer from a world the reconciler does not see.
    [clientGet] and [clientUpdate] return the object as the server has it;
    the Archer calls return the payload of the response.  Payloads and list
    items are taken as non-nil. *)
Record Collaborators (World : Type) : Type := {
  clientGet : World -> string -> string -> World * outcome K8sService;
  clientUpdate : World -> K8sService -> World * outcome K8sService;
  archerGetService : World -> list string -> World * outcome (list Service);
  archerPostService : World -> Service -> World * outcome Service;
  archerPutService : World -> string -> ServiceUpdatable -> World * outcome unit;
  archerDeleteService : World -> string -> World * outcome unit
}.
Arguments clientGet {World} _ _ _ _.
Arguments clientUpdate {World} _ _ _.
Arguments archerGetService {World} _ _ _.
Arguments archerPostService {World} _ _ _.
Arguments archerPutService {World} _ _ _ _.
Arguments archerDeleteService {World} _ _ _.

(** State threaded through a reconcile: the world, the object [svc] points
    to, and the calls made so far. *)
Record St (World : Type) : Type := {
  world : World;
  svcObj : K8sService;
  trace : list Event
}.
Arguments world {World} _.
Arguments svcObj {World} _.
Arguments trace {World} _.

Definition M (World A : Type) : Type := St World -> outcome A * St World.

Definition ret {World A} (a : A) : M World A := fun s => (Ok a, s).

Definition bind {World A B} (m : M World A) (f : A -> M World B) : M World B :=
  fun s =>
    match m s with
    | (Ok a, s') => f a s'
    | (Err e, s') => (Err e, s')
    | (Panic p, s') => (Panic p, s')
    end.

Notation "'let*' x := m 'in' k" := (bind m (fun x => k))
  (at level 10, x name, m at level 100, k at level 200).

(** A pure Go call inside the reconcile. *)
Definition lift {World A} (o : outcome A) : M World A := fun s => (o, s).

Definition fail {World A} (e : error) : M World A := fun s => (Err e, s).

(** [err := f(...)]: the error becomes a value the caller tests. *)
Definition goErr {World} (m : M World unit) : M World (option error) :=
  fun s =>
    match m s with
    | (Ok _, s') => (Ok None, s')
    | (Err e, s') => (Ok (Some e), s')
    | (Panic p, s') => (Panic p, s')
    end.

Definition getSvc {World} : M World K8sService := fun s => (Ok (svcObj s), s).

Definition putSvc {World} (svc : K8sService) : M World unit :=
  fun s => (Ok tt, {| world := world s; svcObj := svc; trace := trace s |}).

(** The zero value [new(corev1.Service)] allocates. *)
Definition zeroK8sService : K8sService :=
  {| Namespace := ""; Name := ""; UID := ""; Annotations := None;
     Finalizers := []; DeletionTimestamp := None; ClusterIP := "";
     Ports := [] |}.

Definition setAnnotations (svc : K8sService) (a : option (gmap string string)) : K8sService :=
  {| Namespace := Namespace svc; Name := Name svc; UID := UID svc;
     Annotations := a; Finalizers := Finalizers svc;
     DeletionTimestamp := DeletionTimestamp svc; ClusterIP := ClusterIP svc;
     Ports := Ports svc |}.

Definition setFinalizers (svc : K8sService) (f : list string) : K8sService :=
  {| Namespace := Namespace svc; Name := Name svc; UID := UID svc;
     Annotations := Annotations svc; Finalizers := f;
     DeletionTimestamp := DeletionTimestamp svc; ClusterIP := ClusterIP svc;
     Ports := Ports svc |}.

(** [svc.Annotations[key] = v]: an assignment to an entry of a nil map panics. *)
Definition assignAnnotation (key v : string) (svc : K8sService) : outcome K8sService :=
  match Annotations svc with
  | None => Panic AssignmentToNilMap
  | Some m => Ok (setAnnotations svc (Some (<[key := v]> m)))
  end.

(** [controllerutil]: finalizer helpers. *)
Definition ContainsFinalizer (svc : K8sService) (finalizer : string) : bool :=
  existsb (String.eqb finalizer) (Finalizers svc).

Definition AddFinalizer (svc : K8sService) (finalizer : string) : K8sService :=
  if ContainsFinalizer svc finalizer then svc
  else setFinalizers svc (Finalizers svc ++ [finalizer]).

Definition RemoveFinalizer (svc : K8sService) (finalizer : string) : K8sService :=
  setFinalizers svc
    (List.filter (fun e => negb (String.eqb e finalizer)) (Finalizers svc)).

(** [DeletionTimestamp.IsZero()]: a nil pointer or the zero time. *)
Definition IsZero (t : option Z) : bool :=
  match t with
  | None => true
  | Some v => Z.eqb v 0
  end.

(** ** The reconciler *)

Section Reconcile.
Context {World : Type} (c : Collaborators World) (r : Reconciler).

(** [r.Get(ctx, req.NamespacedName, svc)]: fills [svc] on success. *)
Definition Get (ns name : string) : M World unit :=
  fun s =>
    let '(w, res) := clientGet c (world s) ns name in
    let tr := trace s ++ [EvGet ns name] in
    match res with
    | Ok o => (Ok tt, {| world := w; svcObj := o; trace := tr |})
    | Err e => (Err e, {| world := w; svcObj := svcObj s; trace := tr |})
    | Panic p => (Panic p, {| world := w; svcObj := svcObj s; trace := tr |})
    end.

(** [r.Update(ctx, svc)]: sends [svc]; on success [svc] holds the
    server's answer. *)
Definition Update : M World unit :=
  fun s =>
    let '(w, res) := clientUpdate c (world s) (svcObj s) in
    let tr := trace s ++ [EvUpdate (svcObj s)] in
    match res with
    | Ok o => (Ok tt, {| world := w; svcObj := o; trace := tr |})
    | Err e => (Err e, {| world := w; svcObj := svcObj s; trace := tr |})
    | Panic p => (Panic p, {| world := w; svcObj := svcObj s; trace := tr |})
    end.

(** A call to the Archer client. *)
Definition archerCall {A} (ev : Event) (f : World -> World * outcome A) : M World A :=
  fun s =>
    let '(w, res) := f (world s) in
    (res, {| world := w; svcObj := svcObj s; trace := trace s ++ [ev] |}).

Definition GetService (tags : list string) : M World (list Service) :=
  archerCall (EvGetService tags) (fun w => archerGetService c w tags).

Definition PostService (body : Service) : M World Service :=
  archerCall (EvPostService body) (fun w => archerPostService c w body).

Definition PutServiceServiceID (id : string) (b : ServiceUpdatable) : M World unit :=
  archerCall (EvPutService id b) (fun w => archerPutService c w id b).

Definition DeleteServiceServiceID (id : string) : M World unit :=
  archerCall (EvDeleteService id) (fun w => archerDeleteService c w id).

(** [createEndpointService] *)
Definition createEndpointService : M World unit :=
  let* svc := getSvc in
  let* body := lift (getBodyFromService r svc) in
  let* res := PostService body in
  let* svc' := lift (assignAnnotation (makeAnnotation (AnnotationKey r) "archer-id") (sID res) svc) in
  let* _ := putSvc svc' in
  Update.

(** [updateEndpointService] *)
Definition updateEndpointService (m : Service) : M World unit :=
  let* svc := getSvc in
  let* body := lift (getBodyFromService r svc) in
  let* same := lift (serviceEqual body m) in
  if negb same then
    let b := {| uDescription := Some (sDescription body);
                uEnabled := sEnabled body;
                uIPAddresses := sIPAddresses body;
                uName := Some (sName body);
                uPort := Some (sPort body);
                uProxyProtocol := sProxyProtocol body;
                uRequireApproval := sRequireApproval body;
                uTags := sTags body;
                uVisibility := sVisibility body |} in
    PutServiceServiceID (sID m) b
  else ret tt.

(** [deleteEndpointService] *)
Definition deleteEndpointService : M World unit :=
  let* svc := getSvc in
  match getAnnotationString (makeAnnotation (AnnotationKey r) "id") svc with
  | None => ret tt
  | Some id => DeleteServiceServiceID id
  end.

(** [reconcileEndpointService] *)
Definition reconcileEndpointService : M World unit :=
  let* svc := getSvc in
  let* items := GetService ["kubernetes"; UID svc] in
  match items with
  | [] => createEndpointService
  | [m] => updateEndpointService m
  | _ => fail (ErrMultiple (Namespace svc) (Name svc))
  end.

(** [client.IgnoreNotFound(err)] as the value [Reconcile] returns. *)
Definition IgnoreNotFound (e : error) : M World unit :=
  match e with
  | ErrNotFound => ret tt
  | _ => fail e
  end.

(** [Reconcile] *)
Definition Reconcile (ns name : string) : M World unit :=
  let* _ := putSvc zeroK8sService in
  let* err := goErr (Get ns name) in
  match err with
  | Some e => IgnoreNotFound e
  | None =>
      let* svc := getSvc in
      let createAnnotation := makeAnnotation (AnnotationKey r) AnnotationEndpointServiceCreate in
      if negb (getAnnotationBoolean createAnnotation svc false) then ret tt
      else
        let archerFinalizerName := makeAnnotation (AnnotationKey r) "finalizer" in
        if IsZero (DeletionTimestamp svc) then
          let* _ :=
            (if negb (ContainsFinalizer svc archerFinalizerName) then
               let* _ := putSvc (AddFinalizer svc archerFinalizerName) in
               Update
             else ret tt) in
          reconcileEndpointService
        else
          let* _ :=
            (if ContainsFinalizer svc archerFinalizerName then deleteEndpointService
             else ret tt) in
          let* svc := getSvc in
          let* _ := putSvc (RemoveFinalizer svc archerFinalizerName) in
          Update
  end.

(** One reconcile from a world [w]: the result, and the final state. *)
Definition runReconcile (w : World) (ns name : string) : outcome unit * St World :=
  Reconcile ns name {| world := w; svcObj := zeroK8sService; trace := [] |}.

End Reconcile.

(** * Vocabulary of the statements *)

(** An address of the desired side matches a remote one when it is the same
    string, or the remote string followed by "/32". *)
Definition ipMatches (ip ip2 : string) : Prop :=
  ip = ip2 \/ ip = ip2 +:+ "/32".

(** ** Sample values *)

(** An Archer service as [getBodyFromService] builds it for namespace
    "ns", name "web", with the given optional flag, addresses and tags. *)
Definition sampleService (enabled : option bool) (ips tags : list string) : Service :=
  {| sID := "";
     sName := "ns-web";
     sDescription := "Kubernetes service ns/web";
     sEnabled := enabled;
     sIPAddresses := ips;
     sNetworkID := Some "net0";
     sPort := 80;
     sProxyProtocol := None;
     sRequireApproval := None;
     sTags := tags;
     sAvailabilityZone := None;
     sVisibility := Some "public" |}.

(** The reconciler as deployed with the prefix "cloud.sap". *)
Definition sampleReconciler : Reconciler :=
  {| NetworkID := "net0"; AnnotationKey := "cloud.sap" |}.

(** The service ns/web with unique id "u1" and cluster address 10.0.0.1. *)
Definition sampleK8s (ann : option (gmap string string)) (fin : list string)
    (deleted : option Z) (ports : list Z) : K8sService :=
  {| Namespace := "ns"; Name := "web"; UID := "u1"; Annotations := ann;
     Finalizers := fin; DeletionTimestamp := deleted; ClusterIP := "10.0.0.1";
     Ports := map (fun p => {| Port := p |}) ports |}.

(** ** Joining and splitting strings *)

(** [strings.Join(pieces, sep)] for a separator of one byte. *)
Fixpoint Join (pieces : list string) (sep : ascii) : string :=
  match pieces with
  | [] => EmptyString
  | [p] => p
  | p :: rest => p +:+ String sep (Join rest sep)
  end.

Fixpoint containsByte (c : ascii) (s : string) : bool :=
  match s with
  | EmptyString => false
  | String ch s' => Ascii.eqb ch c || containsByte c s'
  end.

(** White space, for the reading "split on whitespace" of the
    specification: Go's [unicode.IsSpace] among the bytes below 128. *)
Definition isSpace (c : ascii) : bool :=
  let n := nat_of_ascii c in
  ((9 <=? n)%nat && (n <=? 13)%nat) || Nat.eqb n 32.

(** The specification's reading of the tags annotation: the value cut at
    every white-space byte. *)
Fixpoint SplitWhitespace (s : string) : list string :=
  match s with
  | EmptyString => [EmptyString]
  | String c s' =>
      if isSpace c then EmptyString :: SplitWhitespace s'
      else
        match SplitWhitespace s' with
        | piece :: pieces => String c piece :: pieces
        | [] => [String c EmptyString]
        end
  end.

(** The same reading taken as [strings.Fields]: the maximal runs of bytes
    that are not white space. *)
Definition Fields (s : string) : list string :=
  List.filter (fun p => negb (String.eqb p EmptyString)) (SplitWhitespace s).

(** A tags annotation whose two tags are separated by a tab. *)
Definition tabbedTags : string :=
  String "a"%char (String "009"%char (String "b"%char EmptyString)).

Definition tabbedK8s : K8sService :=
  sampleK8s (Some {[ "cloud.sap/archer-tags" := tabbedTags ]}) [] None [80].

(** ** Kinds of calls in a trace *)


Definition isDelete (ev : Event) : bool :=
  match ev with
  | EvDeleteService _ => true
  | _ => false
  end.

(** * A simulated cluster and broker

    One object in the cluster and a list of endpoint services at the
    broker, to run the reconciler on concrete inputs. *)

Record Sim : Type := {
  cluster : option K8sService;
  broker : list Service;
  brokerDown : bool
}.

Definition setID (b : Service) (id : string) : Service :=
  {| sID := id; sName := sName b; sDescription := sDescription b;
     sEnabled := Some true; sIPAddresses := sIPAddresses b;
     sNetworkID := sNetworkID b; sPort := sPort b;
     sProxyProtocol := sProxyProtocol b; sRequireApproval := sRequireApproval b;
     sTags := sTags b; sAvailabilityZone := sAvailabilityZone b;
     sVisibility := sVisibility b |}.

Definition hasTags (tags : list string) (s : Service) : bool :=
  forallb (fun t => existsb (String.eqb t) (sTags s)) tags.

Definition simCollaborators : Collaborators Sim :=
  {| clientGet w ns name :=
       (w, match cluster w with
           | Some o =>
               if String.eqb (Namespace o) ns && String.eqb (Name o) name
               then Ok o else Err ErrNotFound
           | None => Err ErrNotFound
           end);
     clientUpdate w o :=
       ({| cluster := Some o; broker := broker w; brokerDown := brokerDown w |}, Ok o);
     archerGetService w tags :=
       (w, if brokerDown w then Err (ErrApi 503)
           else Ok (List.filter (hasTags tags) (broker w)));
     archerPostService w body :=
       if brokerDown w then (w, Err (ErrApi 503))
       else
         let created := setID body ("es-" +:+ sName body) in
         ({| cluster := cluster w; broker := broker w ++ [created];
             brokerDown := brokerDown w |}, Ok created);
     archerPutService w id b :=
       (w, if brokerDown w then Err (ErrApi 503) else Ok tt);
     archerDeleteService w id :=
       if brokerDown w then (w, Err (ErrApi 503))
       else
         ({| cluster := cluster w;
             broker := List.filter (fun s => negb (String.eqb (sID s) id)) (broker w);
             brokerDown := brokerDown w |}, Ok tt) |}.

(** The platform sets the deletion timestamp of the stored object. *)
Definition requestDeletion (w : Sim) (t : Z) : Sim :=
  {| cluster :=
       match cluster w with
       | Some o =>
           Some {| Namespace := Namespace o; Name := Name o; UID := UID o;
                   Annotations := Annotations o; Finalizers := Finalizers o;
                   DeletionTimestamp := Some t; ClusterIP := ClusterIP o;
                   Ports := Ports o |}
       | None => None
       end;
     broker := broker w;
     brokerDown := brokerDown w |}.

Definition simReconcile (w : Sim) : outcome unit * St Sim :=
  runReconcile simCollaborators sampleReconciler w "ns" "web".

(** A new service that asks for an endpoint service, and an empty broker. *)
Definition freshWorld : Sim :=
  {| cluster := Some (sampleK8s (Some {[ "cloud.sap/archer-create" := "true" ]}) [] None [80]);
     broker := [];
     brokerDown := false |}.

Definition createdWorld : Sim := world (snd (simReconcile freshWorld)).

Definition deletingWorld : Sim := requestDeletion createdWorld 1700000000.

Definition clusterAnnotation (w : Sim) (key : string) : option string :=
  match cluster w with
  | Some o => getAnnotationString key o
  | None => None
  end.

Definition clusterFinalizers (w : Sim) : option (list string) :=
  match cluster w with
  | Some o => Some (Finalizers o)
  | None => None
  end.

Definition eventName (ev : Event) : string :=
  match ev with
  | EvGet _ _ => "Get"
  | EvUpdate _ => "Update"
  | EvGetService _ => "GetService"
  | EvPostService _ => "PostService"
  | EvPutService _ _ => "PutServiceServiceID"
  | EvDeleteService _ => "DeleteServiceServiceID"
  end.

(** A tracked object that is not being deleted. *)
Definition trackedK8s : K8sService :=
  sampleK8s (Some {[ "cloud.sap/archer-create" := "true" ]})
            ["cloud.sap/finalizer"] None [80].

(** Two endpoint services at the broker that carry the tags of one object. *)
Definition twoMatches : list Service :=
  [setID (sampleService None ["10.0.0.1"] ["kubernetes"; "u1"]) "es-1";
   setID (sampleService None ["10.0.0.1"] ["kubernetes"; "u1"; "blue"]) "es-2"].

Definition ambiguousWorld : Sim :=
  {| cluster := Some trackedK8s; broker := twoMatches; brokerDown := false |}.

(** An object being deleted, with the finalizer, whose create annotation
    is not the exact string "true". *)
Definition ungatedK8s : K8sService :=
  sampleK8s (Some {[ "cloud.sap/archer-create" := "True" ]})
            ["cloud.sap/finalizer"] (Some 1700000000) [80].

Definition ungatedWorld : Sim :=
  {| cluster := Some ungatedK8s; broker := twoMatches; brokerDown := false |}.





(** The broker holds the endpoint service of the tracked object, with its
    address in the form the given string has. *)
Definition syncedWorld (ip : string) : Sim :=
  {| cluster := Some trackedK8s;
     broker := [setID (sampleService None [ip] ["kubernetes"; "u1"]) "es-1"];
     brokerDown := false |}.

(** ** Further vocabulary *)

(** The composite literal [&models.ServiceUpdatable{...}] that
    [updateEndpointService] sends. *)
Definition updatableOf (body : Service) : ServiceUpdatable :=
  {| uDescription := Some (sDescription body);
     uEnabled := sEnabled body;
     uIPAddresses := sIPAddresses body;
     uName := Some (sName body);
     uPort := Some (sPort body);
     uProxyProtocol := sProxyProtocol body;
     uRequireApproval := sRequireApproval body;
     uTags := sTags body;
     uVisibility := sVisibility body |}.

Definition setEnabled (b : Service) (v : option bool) : Service :=
  {| sID := sID b; sName := sName b; sDescription := sDescription b;
     sEnabled := v; sIPAddresses := sIPAddresses b;
     sNetworkID := sNetworkID b; sPort := sPort b;
     sProxyProtocol := sProxyProtocol b; sRequireApproval := sRequireApproval b;
     sTags := sTags b; sAvailabilityZone := sAvailabilityZone b;
     sVisibility := sVisibility b |}.

Definition setServiceID (b : Service) (id : string) : Service :=
  {| sID := id; sName := sName b; sDescription := sDescription b;
     sEnabled := sEnabled b; sIPAddresses := sIPAddresses b;
     sNetworkID := sNetworkID b; sPort := sPort b;
     sProxyProtocol := sProxyProtocol b; sRequireApproval := sRequireApproval b;
     sTags := sTags b; sAvailabilityZone := sAvailabilityZone b;
     sVisibility := sVisibility b |}.

(** Occurrences of a byte in a string. *)
Fixpoint countByte (c : ascii) (s : string) : nat :=
  match s with
  | EmptyString => O
  | String ch s' => ((if Ascii.eqb ch c then 1 else 0) + countByte c s')%nat
  end.

(** Calls that change the state of the broker. *)
Definition isMutation (ev : Event) : bool :=
  match ev with
  | EvPostService _ | EvPutService _ _ | EvDeleteService _ => true
  | _ => false
  end.

(** Calls to the broker. *)
Definition isBrokerCall (ev : Event) : bool :=
  match ev with
  | EvGet _ _ | EvUpdate _ => false
  | _ => true
  end.

(** The suffixes [getBodyFromService] reads. *)
Definition bodySuffixes : list string :=
  [AnnotationEndpointServicePort; AnnotationEndpointServiceName;
   AnnotationEndpointServiceNetwork; AnnotationEndpointServiceProxyProtocol;
   AnnotationEndpointServiceRequireApproval; AnnotationEndpointServiceTags;
   AnnotationEndpointServiceAvailabilityZone; AnnotationEndpointServiceVisibility].

(** A computation emits at most [n] mutations, and only calls that [ok]
    accepts: from every state, the trace grows by such a list of calls. *)
Definition emits {World A : Type} (n : nat) (ok : Event -> bool) (m : M World A) : Prop :=
  forall s, exists evs,
    trace (snd (m s)) = trace s ++ evs /\
    (length (List.filter isMutation evs) <= n)%nat /\
    forallb ok evs = true.

Definition notDelete (ev : Event) : bool := negb (isDelete ev).

Definition anyEvent (ev : Event) : bool := true.

(** ** Further worlds of the simulated cluster *)

(** No object in the cluster. *)
Definition emptyWorld : Sim :=
  {| cluster := None; broker := []; brokerDown := false |}.

(** The tracked object, and no endpoint service at a broker that is up or
    down. *)
Definition trackedWorld (down : bool) : Sim :=
  {| cluster := Some trackedK8s; broker := []; brokerDown := down |}.

(** A tracked object that declares no port. *)
Definition portlessK8s : K8sService :=
  sampleK8s (Some {[ "cloud.sap/archer-create" := "true" ]})
            ["cloud.sap/finalizer"] None [].

Definition portlessWorld : Sim :=
  {| cluster := Some portlessK8s; broker := []; brokerDown := false |}.

(** An object that is being deleted and does not carry the finalizer. *)
Definition orphanK8s : K8sService :=
  sampleK8s (Some {[ "cloud.sap/archer-create" := "true"; "cloud.sap/id" := "es-1" ]})
            ["other/finalizer"] (Some 1700000000) [80].

Definition orphanWorld : Sim :=
  {| cluster := Some orphanK8s; broker := twoMatches; brokerDown := false |}.

(** The object created by hand, before the controller has seen it. *)
Definition untrackedK8s : K8sService :=
  sampleK8s (Some {[ "cloud.sap/archer-create" := "true" ]}) [] None [80].

(** A state in which [svc] has a nil annotation map. *)
Definition nilAnnotationsState : St Sim :=
  {| world := trackedWorld false;
     svcObj := sampleK8s None [] None [80];
     trace := [] |}.

(** The tracked object in front of [updateEndpointService], before and
    after an availability-zone annotation is set, and a remote service that
    differs from its desired state. *)
Definition zoneState : St Sim :=
  {| world := syncedWorld "10.0.0.9"; svcObj := trackedK8s; trace := [] |}.

Definition zoneStateChanged : St Sim :=
  {| world := syncedWorld "10.0.0.9";
     svcObj := setAnnotations trackedK8s
                 (Some (<["cloud.sap/archer-availability-zone" := "az-1"]>
                          {[ "cloud.sap/archer-create" := "true" ]}));
     trace := [] |}.

Definition driftedRemote : Service :=
  setID (sampleService None ["10.0.0.9"] ["kubernetes"; "u1"]) "es-1".

(** All suffixes the controller reads or writes. *)
Definition controllerSuffixes : list string :=
  [AnnotationEndpointServiceCreate; AnnotationEndpointServiceNetwork;
   AnnotationEndpointServiceName; AnnotationEndpointServiceProxyProtocol;
   AnnotationEndpointServiceVisibility; AnnotationEndpointServiceRequireApproval;
   AnnotationEndpointServiceTags; AnnotationEndpointServiceAvailabilityZone;
   AnnotationEndpointServicePort; "archer-id"; "id"; "finalizer"].

(** * Properties of the comparison [serviceEqual] *)

Section Found.
(** The inner loops keep a flag that is only ever raised: they compute
    an [existsb]. *)
Variable A : Type.
Variable hit : A -> bool.

Lemma fold_found_true (l : list A) :
  fold_left (fun found x => if hit x then true else found) l true = true.
Proof. induction l as [|x l IH]; simpl; [reflexivity|]. destruct (hit x); exact IH. Qed.

Lemma fold_found_existsb (l : list A) :
  fold_left (fun found x => if hit x then true else found) l false = existsb hit l.
Proof.
  induction l as [|x l IH]; simpl; [reflexivity|].
  destruct (hit x); simpl; [apply fold_found_true | exact IH].
Qed.
End Found.

Lemma tagFound_In (tag : string) (tags2 : list string) :
  tagFound tag tags2 = true <-> In tag tags2.
Proof.
  unfold tagFound. rewrite (fold_found_existsb string (String.eqb tag)).
  rewrite existsb_exists. split.
  - intros [x [Hin Heq]]. apply String.eqb_eq in Heq. subst. exact Hin.
  - intros Hin. exists tag. split; [exact Hin | apply String.eqb_refl].
Qed.

Lemma tagsAllFound_spec (tags1 tags2 : list string) :
  tagsAllFound tags1 tags2 = true <-> (forall t, In t tags1 -> In t tags2).
Proof.
  induction tags1 as [|t rest IH]; simpl.
  - split; [intros _ t [] | reflexivity].
  - destruct (tagFound t tags2) eqn:E.
    + rewrite IH. apply tagFound_In in E. split.
      * intros H x [<-|Hx]; [exact E | apply H, Hx].
      * intros H x Hx. apply H. right. exact Hx.
    + split; [discriminate|]. intros H.
      assert (In t tags2) as Hin by (apply H; left; reflexivity).
      apply tagFound_In in Hin. congruence.
Qed.

Lemma tagsEqual_spec (tags1 tags2 : list string) :
  tagsEqual tags1 tags2 = true <->
  length tags1 = length tags2 /\ (forall t, In t tags1 -> In t tags2).
Proof.
  unfold tagsEqual. destruct (Nat.eqb_spec (length tags1) (length tags2)) as [E|E]; simpl.
  - rewrite tagsAllFound_spec. tauto.
  - split; [discriminate | tauto].
Qed.


Lemma ipFound_spec (ip : string) (ips2 : list string) :
  ipFound ip ips2 = true <-> exists ip2, In ip2 ips2 /\ ipMatches ip ip2.
Proof.
  unfold ipFound.
  rewrite (fold_found_existsb string
             (fun ip2 => String.eqb ip ip2 || String.eqb ip (ip2 +:+ "/32"))).
  rewrite existsb_exists. unfold ipMatches.
  split; intros [x [Hin H]]; exists x; (split; [exact Hin|]).
  - apply orb_true_iff in H as [H|H]; apply String.eqb_eq in H; auto.
  - apply orb_true_iff. destruct H as [H|H]; [left|right]; apply String.eqb_eq, H.
Qed.

Lemma ipsAllFound_spec (ips1 ips2 : list string) :
  ipsAllFound ips1 ips2 = true <->
  (forall ip, In ip ips1 -> exists ip2, In ip2 ips2 /\ ipMatches ip ip2).
Proof.
  induction ips1 as [|a rest IH]; simpl.
  - split; [intros _ ip [] | reflexivity].
  - destruct (ipFound a ips2) eqn:E.
    + rewrite IH. apply ipFound_spec in E. split.
      * intros H x [<-|Hx]; [exact E | apply H, Hx].
      * intros H x Hx. apply H. right. exact Hx.
    + split; [discriminate|]. intros H.
      assert (ipFound a ips2 = true) as Habs; [|congruence].
      apply ipFound_spec, H. left. reflexivity.
Qed.

Lemma ipAddressesEqual_spec (ips1 ips2 : list string) :
  ipAddressesEqual ips1 ips2 = true <->
  length ips1 = length ips2 /\
  (forall ip, In ip ips1 -> exists ip2, In ip2 ips2 /\ ipMatches ip ip2).
Proof.
  unfold ipAddressesEqual. destruct (Nat.eqb_spec (length ips1) (length ips2)) as [E|E]; simpl.
  - rewrite ipsAllFound_spec. tauto.
  - split; [discriminate | tauto].
Qed.

(** [serviceEqual] faults only at the test of [Enabled], and only when the
    desired side sets it and the remote side does not. *)
Lemma serviceEqual_returns (s1 s2 : Service) :
  sEnabled s1 = None \/ sEnabled s2 <> None ->
  exists b, serviceEqual s1 s2 = Ok b.
Proof.
  intros H. unfold serviceEqual.
  repeat match goal with
         | |- exists b, (if ?c then _ else _) = _ => destruct c; [eexists; reflexivity|]
         end.
  destruct (sEnabled s1) as [a|], (sEnabled s2) as [b|]; simpl;
    try (destruct H as [H|H]; [discriminate H | exfalso; apply H; reflexivity]).
  all: repeat match goal with
         | |- exists b, (if ?c then _ else _) = _ => destruct c; [eexists; reflexivity|]
         end; eexists; reflexivity.
Qed.

Lemma serviceEqual_faults (s1 s2 : Service) (a : bool) :
  sName s1 = sName s2 ->
  sDescription s1 = sDescription s2 ->
  sEnabled s1 = Some a ->
  sEnabled s2 = None ->
  serviceEqual s1 s2 = Panic NilPointerDereference.
Proof.
  intros Hn Hd H1 H2. unfold serviceEqual.
  rewrite Hn, Hd, H1, H2, !String.eqb_refl. reflexivity.
Qed.

Lemma string_length_app (s1 s2 : string) :
  String.length (s1 +:+ s2) = (String.length s1 + String.length s2)%nat.
Proof. induction s1 as [|ch s1 IH]; simpl; [reflexivity | rewrite IH; reflexivity]. Qed.

Lemma string_app_nonempty_neq (s t : string) :
  (0 < String.length t)%nat -> s <> s +:+ t.
Proof.
  intros Hlen Heq. apply (f_equal String.length) in Heq.
  rewrite string_length_app in Heq. lia.
Qed.

(** A desired address never matches the remote address that is the same
    address with "/32" appended: the suffix is put on the remote operand. *)
Lemma ipFound_remote_suffixed (a : string) : ipFound a [a +:+ "/32"] = false.
Proof.
  destruct (ipFound a [a +:+ "/32"]) eqn:E; [|reflexivity].
  apply ipFound_spec in E as [ip2 [Hin Hm]].
  destruct Hin as [Hin|[]]. subst ip2. exfalso.
  destruct Hm as [Hm|Hm]; revert Hm.
  - apply string_app_nonempty_neq. simpl. lia.
  - replace ((a +:+ "/32") +:+ "/32") with (a +:+ "/32/32").
    + apply string_app_nonempty_neq. simpl. lia.
    + induction a as [|ch a IH]; [reflexivity|].
      change (String ch (a +:+ "/32/32") = String ch ((a +:+ "/32") +:+ "/32")).
      f_equal. exact IH.
Qed.

Lemma ipFound_desired_suffixed (a : string) : ipFound (a +:+ "/32") [a] = true.
Proof. apply ipFound_spec. exists a. split; [left; reflexivity | right; reflexivity]. Qed.

Lemma containsByte_app (c : ascii) (s t : string) :
  containsByte c (s +:+ t) = containsByte c s || containsByte c t.
Proof.
  induction s as [|ch s IH]; simpl; [reflexivity|].
  rewrite IH. apply orb_assoc.
Qed.

(** Two distinct addresses written without a network suffix are unequal. *)
Lemma distinct_bare_addresses_unequal (a b : string) :
  containsByte "/"%char a = false ->
  a <> b ->
  ipAddressesEqual [a] [b] = false.
Proof.
  intros Hbare Hne.
  destruct (ipAddressesEqual [a] [b]) eqn:E; [|reflexivity].
  apply ipAddressesEqual_spec in E as [_ H].
  destruct (H a (or_introl eq_refl)) as [ip2 [[<-|[]] [Hm|Hm]]].
  - contradiction.
  - rewrite Hm, containsByte_app in Hbare.
    simpl in Hbare. rewrite orb_true_r in Hbare. discriminate Hbare.
Qed.

(** C2. The address comparison of [serviceEqual] passes exactly when the
    two lists have the same length and every desired address equals some
    remote address or some remote address followed by "/32".  For every
    address [a], the desired address [a] against the remote address
    [a/32] is therefore judged unequal, where the specification has it
    equal; it is the desired [a/32] against the remote [a] that is judged
    equal.  Two distinct bare addresses are unequal. *)
Theorem serviceEqual_ip_suffix_on_remote_operand :
  (forall ips1 ips2,
      ipAddressesEqual ips1 ips2 = true <->
      length ips1 = length ips2 /\
      (forall ip, In ip ips1 ->
                  exists ip2, In ip2 ips2 /\ (ip = ip2 \/ ip = ip2 +:+ "/32"))) /\
  (forall a, ipAddressesEqual [a] [a +:+ "/32"] = false) /\
  (forall a, ipAddressesEqual [a +:+ "/32"] [a] = true) /\
  serviceEqual (sampleService None ["10.0.0.1"] ["kubernetes"; "u1"])
               (sampleService (Some true) ["10.0.0.1/32"] ["kubernetes"; "u1"])
  = Ok false /\
  serviceEqual (sampleService None ["10.0.0.1/32"] ["kubernetes"; "u1"])
               (sampleService (Some true) ["10.0.0.1"] ["kubernetes"; "u1"])
  = Ok true /\
  serviceEqual (sampleService None ["10.0.0.1"] ["kubernetes"; "u1"])
               (sampleService (Some true) ["10.0.0.2"] ["kubernetes"; "u1"])
  = Ok false.
Proof.
  split; [exact ipAddressesEqual_spec|].
  split; [intros a; unfold ipAddressesEqual; simpl; rewrite ipFound_remote_suffixed; reflexivity|].
  split; [intros a; unfold ipAddressesEqual; simpl; rewrite ipFound_desired_suffixed; reflexivity|].
  repeat split; reflexivity.
Qed.

(** C3. [serviceEqual] is not total: with equal names and descriptions, a
    desired side that sets [Enabled] and a remote side that leaves it nil
    make the function dereference a nil pointer.  This is its only fault:
    on every other pair of services it returns a boolean. *)
Theorem serviceEqual_nil_enabled_faults :
  serviceEqual (sampleService (Some true) ["10.0.0.1"] ["kubernetes"; "u1"])
               (sampleService None ["10.0.0.1"] ["kubernetes"; "u1"])
  = Panic NilPointerDereference /\
  (forall s1 s2 : Service,
      (exists b, serviceEqual s1 s2 = Ok b) \/
      (serviceEqual s1 s2 = Panic NilPointerDereference /\
       sName s1 = sName s2 /\
       sDescription s1 = sDescription s2 /\
       sEnabled s1 <> None /\
       sEnabled s2 = None)).
Proof.
  split; [reflexivity|].
  intros s1 s2.
  destruct (sEnabled s1) as [a|] eqn:H1;
    [|left; apply serviceEqual_returns; left; exact H1].
  destruct (sEnabled s2) as [b|] eqn:H2;
    [left; apply serviceEqual_returns; right; rewrite H2; discriminate|].
  destruct (String.eqb_spec (sName s1) (sName s2)) as [Hn|Hn].
  - destruct (String.eqb_spec (sDescription s1) (sDescription s2)) as [Hd|Hd].
    + right. split; [exact (serviceEqual_faults s1 s2 a Hn Hd H1 H2)|].
      repeat split; try assumption. discriminate.
    + left. exists false. unfold serviceEqual.
      apply String.eqb_neq in Hd. rewrite Hn, String.eqb_refl, Hd. reflexivity.
  - left. exists false. unfold serviceEqual.
    apply String.eqb_neq in Hn. rewrite Hn. reflexivity.
Qed.



(** * Properties of the desired state [getBodyFromService] *)

(** ** Parsing the port *)

Lemma Atoi_no_panic (s : string) (p : panic) : Atoi s <> Panic p.
Proof.
  unfold Atoi. destruct s as [|ch rest]; [discriminate|].
  match goal with
  | |- context [if ?b then rest else String ch rest] =>
      destruct (if b then rest else String ch rest)
  end; [discriminate|].
  destruct (scanDigits _ _); try discriminate.
  repeat match goal with
         | |- (if ?b then _ else _) <> _ => destruct b; try discriminate
         end.
Qed.

Lemma Atoi_error_kind (s : string) (e : error) :
  Atoi s = Err e -> e = ErrSyntax "Atoi" s \/ e = ErrRange "Atoi" s.
Proof.
  unfold Atoi. destruct s as [|ch rest]; [intros [= <-]; auto|].
  match goal with
  | |- context [if ?b then rest else String ch rest] =>
      destruct (if b then rest else String ch rest)
  end; [intros [= <-]; auto|].
  destruct (scanDigits _ _); try (intros [= <-]; auto).
  repeat match goal with
         | |- (if ?b then _ else _) = _ -> _ => destruct b; try (intros [= <-]; auto)
         end.
Qed.

Example Atoi_8080 : Atoi "8080" = Ok 8080.
Proof. reflexivity. Qed.

Example Atoi_signed : Atoi "+0443" = Ok 443 /\ Atoi "-1" = Ok (-1).
Proof. split; reflexivity. Qed.

Example Atoi_rejects :
  Atoi "" = Err (ErrSyntax "Atoi" "") /\
  Atoi "http" = Err (ErrSyntax "Atoi" "http") /\
  Atoi "80 " = Err (ErrSyntax "Atoi" "80 ") /\
  Atoi "9223372036854775808" = Err (ErrRange "Atoi" "9223372036854775808").
Proof. repeat split; reflexivity. Qed.

(** Every statement after the port leaves the port alone, and only the tags
    statement touches the tags. *)
Ltac split_body_cases :=
  repeat match goal with
         | |- context [match getAnnotationString ?k ?s with _ => _ end] =>
             destruct (getAnnotationString k s)
         | |- context [if getAnnotationBoolean ?k ?s ?d then _ else _] =>
             destruct (getAnnotationBoolean k s d)
         end.

Lemma getBodyFromService_ok (r : Reconciler) (svc : K8sService) (p : Z) :
  bodyPort r svc = Ok p ->
  exists body,
    getBodyFromService r svc = Ok body /\
    sPort body = p /\
    sTags body =
      ["kubernetes"; UID svc] ++
      match getAnnotationString (makeAnnotation (AnnotationKey r) AnnotationEndpointServiceTags) svc with
      | Some tags => Split tags " "%char
      | None => []
      end.
Proof.
  intros Hp. unfold getBodyFromService. rewrite Hp. simpl.
  eexists. split; [reflexivity|].
  split; split_body_cases; reflexivity.
Qed.

Lemma getBodyFromService_inv (r : Reconciler) (svc : K8sService) (body : Service) :
  getBodyFromService r svc = Ok body -> bodyPort r svc = Ok (sPort body).
Proof.
  intros H. destruct (bodyPort r svc) as [p| |] eqn:Hp.
  - destruct (getBodyFromService_ok r svc p Hp) as [b [Hb [Hport _]]].
    rewrite Hb in H. injection H as <-. rewrite Hport. reflexivity.
  - unfold getBodyFromService in H. rewrite Hp in H. discriminate H.
  - unfold getBodyFromService in H. rewrite Hp in H. discriminate H.
Qed.

(** C5. Port precedence of [getBodyFromService]: a port annotation is
    parsed with [Atoi], and its failure is the error returned; without the
    annotation the first declared port is taken; without declared ports the
    "no ports" error is returned.  In every other case a body is returned. *)
Theorem getBodyFromService_port_precedence (r : Reconciler) (svc : K8sService) :
  match getAnnotationString
          (makeAnnotation (AnnotationKey r) AnnotationEndpointServicePort) svc with
  | Some port =>
      match Atoi port with
      | Ok p => exists body, getBodyFromService r svc = Ok body /\ sPort body = int32 p
      | Err e =>
          getBodyFromService r svc = Err e /\
          (e = ErrSyntax "Atoi" port \/ e = ErrRange "Atoi" port)
      | Panic _ => False
      end
  | None =>
      match Ports svc with
      | p0 :: _ => exists body, getBodyFromService r svc = Ok body /\ sPort body = Port p0
      | [] => getBodyFromService r svc = Err (ErrNoPorts (Namespace svc) (Name svc))
      end
  end.
Proof.
  destruct (getAnnotationString _ svc) as [port|] eqn:Hann.
  - destruct (Atoi port) as [p|e|q] eqn:Hatoi.
    + destruct (getBodyFromService_ok r svc (int32 p)) as [body [Hb [Hp _]]].
      { unfold bodyPort. rewrite Hann, Hatoi. reflexivity. }
      exists body. split; assumption.
    + split; [|apply Atoi_error_kind, Hatoi].
      unfold getBodyFromService, bodyPort. rewrite Hann, Hatoi. reflexivity.
    + exact (Atoi_no_panic port q Hatoi).
  - destruct (Ports svc) as [|p0 rest] eqn:Hports.
    + unfold getBodyFromService, bodyPort. rewrite Hann, Hports. reflexivity.
    + destruct (getBodyFromService_ok r svc (Port p0)) as [body [Hb [Hp _]]].
      { unfold bodyPort. rewrite Hann, Hports. reflexivity. }
      exists body. split; assumption.
Qed.

Example port_default_first_declared :
  exists body,
    getBodyFromService sampleReconciler (sampleK8s None [] None [80; 443]) = Ok body /\
    sPort body = 80.
Proof. eexists. split; reflexivity. Qed.

Example port_missing_is_error :
  getBodyFromService sampleReconciler (sampleK8s None [] None []) =
  Err (ErrNoPorts "ns" "web").
Proof. reflexivity. Qed.

Example port_annotation_wins :
  exists body,
    getBodyFromService sampleReconciler
      (sampleK8s (Some {[ "cloud.sap/archer-port" := "8443" ]}) [] None [80; 443]) = Ok body /\
    sPort body = 8443.
Proof. eexists. split; vm_compute; reflexivity. Qed.

(** The parsed value is narrowed to 32 bits: 2^32 + 80 gives port 80. *)
Example port_annotation_narrowed :
  exists body,
    getBodyFromService sampleReconciler
      (sampleK8s (Some {[ "cloud.sap/archer-port" := "4294967376" ]}) [] None []) = Ok body /\
    sPort body = 80.
Proof. eexists. split; vm_compute; reflexivity. Qed.

(** C8. Whenever [getBodyFromService] returns a body, its tags contain the
    marker "kubernetes" and the unique id of the service. *)
Theorem getBodyFromService_correlation_tags
  (r : Reconciler) (svc : K8sService) (body : Service)
  (H : getBodyFromService r svc = Ok body) :
  In "kubernetes" (sTags body) /\ In (UID svc) (sTags body).
Proof.
  destruct (getBodyFromService_ok r svc (sPort body)) as [b [Hb [_ Ht]]].
  { apply getBodyFromService_inv, H. }
  rewrite Hb in H. injection H as <-. rewrite Ht.
  split; [left; reflexivity | right; left; reflexivity].
Qed.

Lemma getBodyFromService_correlation_tags_witness :
  getBodyFromService sampleReconciler
    (sampleK8s (Some {[ "cloud.sap/archer-tags" := "blue edge" ]}) [] None [80])
  = Ok (sampleService None ["10.0.0.1"] ["kubernetes"; "u1"; "blue"; "edge"]) /\
  In "kubernetes"
     (sTags (sampleService None ["10.0.0.1"] ["kubernetes"; "u1"; "blue"; "edge"])) /\
  In "u1"
     (sTags (sampleService None ["10.0.0.1"] ["kubernetes"; "u1"; "blue"; "edge"])).
Proof.
  assert (getBodyFromService sampleReconciler
            (sampleK8s (Some {[ "cloud.sap/archer-tags" := "blue edge" ]}) [] None [80])
          = Ok (sampleService None ["10.0.0.1"] ["kubernetes"; "u1"; "blue"; "edge"]))
    as Hbody by (vm_compute; reflexivity).
  split; [exact Hbody|].
  exact (getBodyFromService_correlation_tags _ _ _ Hbody).
Defined.

(** ** The tags annotation *)

Lemma Split_nonempty (s : string) (sep : ascii) : Split s sep <> [].
Proof.
  destruct s as [|ch s]; simpl; [discriminate|].
  destruct (Ascii.eqb ch sep); [discriminate|].
  destruct (Split s sep); discriminate.
Qed.

(** [Split] cuts at every separator and nowhere else: joining the pieces
    gives the string back, and no piece holds a separator. *)
Lemma Split_Join (s : string) (sep : ascii) : Join (Split s sep) sep = s.
Proof.
  induction s as [|ch s IH]; simpl; [reflexivity|].
  destruct (Ascii.eqb_spec ch sep) as [->|Hne].
  - pose proof (Split_nonempty s sep) as Hn.
    destruct (Split s sep) as [|p ps]; [contradiction|].
    simpl in *. rewrite IH. reflexivity.
  - pose proof (Split_nonempty s sep) as Hn.
    destruct (Split s sep) as [|p ps]; [contradiction|].
    destruct ps as [|p' ps]; simpl in *; rewrite <- IH; reflexivity.
Qed.

Lemma Split_pieces_free (s : string) (sep : ascii) (p : string) :
  In p (Split s sep) -> containsByte sep p = false.
Proof.
  revert p. induction s as [|ch s IH]; simpl; intros p Hin.
  - destruct Hin as [<-|[]]. reflexivity.
  - destruct (Ascii.eqb ch sep) eqn:E.
    + destruct Hin as [<-|Hin]; [reflexivity | apply IH, Hin].
    + pose proof (Split_nonempty s sep) as Hn.
      destruct (Split s sep) as [|q qs]; [contradiction|].
      destruct Hin as [<-|Hin].
      * simpl. rewrite E. simpl. apply IH. left. reflexivity.
      * apply IH. right. exact Hin.
Qed.

(** The tags are not the value split on white space: a tab is white
    space, and the code does not cut there.  The tag list holds the whole
    value as one tag. *)
Lemma tags_not_split_on_whitespace :
  getBodyFromService sampleReconciler tabbedK8s =
    Ok (sampleService None ["10.0.0.1"] ["kubernetes"; "u1"; tabbedTags]) /\
  SplitWhitespace tabbedTags = ["a"; "b"] /\
  Fields tabbedTags = ["a"; "b"] /\
  ["kubernetes"; "u1"; tabbedTags] <> ["kubernetes"; "u1"] ++ SplitWhitespace tabbedTags /\
  ["kubernetes"; "u1"; tabbedTags] <> ["kubernetes"; "u1"] ++ Fields tabbedTags.
Proof.
  split; [vm_compute; reflexivity|].
  split; [reflexivity|]. split; [reflexivity|].
  split; vm_compute; discriminate.
Qed.

(** C10, amended. With a tags annotation present, the tags of the desired
    state are the two correlation markers followed by the pieces
    [strings.Split] cuts the value into at each single space: the pieces
    joined by one space give the value back, and no piece holds a space.
    Other white space does not separate tags, and two adjacent spaces
    enclose an empty tag. *)
Theorem getBodyFromService_tags_split_on_space
  (r : Reconciler) (svc : K8sService) (tags : string) (body : Service)
  (Hann : getAnnotationString
            (makeAnnotation (AnnotationKey r) AnnotationEndpointServiceTags) svc
          = Some tags)
  (Hbody : getBodyFromService r svc = Ok body) :
  sTags body = ["kubernetes"; UID svc] ++ Split tags " "%char /\
  Join (Split tags " "%char) " "%char = tags /\
  (forall p, In p (Split tags " "%char) -> containsByte " "%char p = false).
Proof.
  destruct (getBodyFromService_ok r svc (sPort body)) as [b [Hb [_ Ht]]].
  { apply getBodyFromService_inv, Hbody. }
  rewrite Hb in Hbody. injection Hbody as <-. rewrite Ht, Hann.
  split; [reflexivity|]. split; [apply Split_Join|].
  intros p. apply Split_pieces_free.
Qed.

Lemma getBodyFromService_tags_split_on_space_witness :
  getAnnotationString
    (makeAnnotation (AnnotationKey sampleReconciler) AnnotationEndpointServiceTags)
    (sampleK8s (Some {[ "cloud.sap/archer-tags" := "blue  edge" ]}) [] None [80])
  = Some "blue  edge" /\
  getBodyFromService sampleReconciler
    (sampleK8s (Some {[ "cloud.sap/archer-tags" := "blue  edge" ]}) [] None [80])
  = Ok (sampleService None ["10.0.0.1"] ["kubernetes"; "u1"; "blue"; ""; "edge"]) /\
  sTags (sampleService None ["10.0.0.1"] ["kubernetes"; "u1"; "blue"; ""; "edge"])
  = ["kubernetes"; "u1"] ++ Split "blue  edge" " "%char.
Proof.
  assert (getAnnotationString
            (makeAnnotation (AnnotationKey sampleReconciler) AnnotationEndpointServiceTags)
            (sampleK8s (Some {[ "cloud.sap/archer-tags" := "blue  edge" ]}) [] None [80])
          = Some "blue  edge") as Hann by (vm_compute; reflexivity).
  assert (getBodyFromService sampleReconciler
            (sampleK8s (Some {[ "cloud.sap/archer-tags" := "blue  edge" ]}) [] None [80])
          = Ok (sampleService None ["10.0.0.1"] ["kubernetes"; "u1"; "blue"; ""; "edge"]))
    as Hbody by (vm_compute; reflexivity).
  split; [exact Hann|]. split; [exact Hbody|].
  exact (proj1 (getBodyFromService_tags_split_on_space _ _ _ _ Hann Hbody)).
Defined.

(** * Properties of [Reconcile] *)

(** The two annotation keys for the recorded identifier differ, whatever
    the prefix: [createEndpointService] writes one, [deleteEndpointService]
    reads the other. *)
Lemma archer_id_keys_differ (prefix : string) :
  makeAnnotation prefix "archer-id" <> makeAnnotation prefix "id".
Proof.
  unfold makeAnnotation. intros H.
  apply (String.app_inj prefix) in H. discriminate H.
Qed.

(** Writing the identifier does not change what the deletion path reads. *)
Lemma assignAnnotation_id_unread (prefix v : string) (svc svc' : K8sService) :
  assignAnnotation (makeAnnotation prefix "archer-id") v svc = Ok svc' ->
  getAnnotationString (makeAnnotation prefix "id") svc' =
  getAnnotationString (makeAnnotation prefix "id") svc.
Proof.
  unfold assignAnnotation, getAnnotationString.
  destruct (Annotations svc) as [m|]; [|discriminate].
  intros [= <-]. simpl. apply lookup_insert_ne, archer_id_keys_differ.
Qed.

Section ReconcileFacts.
Context {World : Type} (c : Collaborators World) (r : Reconciler).

Lemma Update_trace (s : St World) :
  trace (snd (Update c s)) = trace s ++ [EvUpdate (svcObj s)].
Proof.
  unfold Update. destruct (clientUpdate c (world s) (svcObj s)) as [w [o|e|p]]; reflexivity.
Qed.

(** The sync step with two or more matches: an error, one list call, and
    nothing else. *)
Lemma reconcileEndpointService_ambiguous (s : St World) (w2 : World) (items : list Service) :
  archerGetService c (world s) ["kubernetes"; UID (svcObj s)] = (w2, Ok items) ->
  (2 <= length items)%nat ->
  reconcileEndpointService c r s =
    (Err (ErrMultiple (Namespace (svcObj s)) (Name (svcObj s))),
     {| world := w2; svcObj := svcObj s;
        trace := trace s ++ [EvGetService ["kubernetes"; UID (svcObj s)]] |}).
Proof.
  intros Hlist Hmany.
  unfold reconcileEndpointService, bind, getSvc, GetService, archerCall.
  rewrite Hlist.
  destruct items as [|m1 [|m2 rest]]; simpl in Hmany; try lia.
  reflexivity.
Qed.

(** What [Reconcile] does up to the test of the create annotation. *)
Lemma Reconcile_loaded (w w1 : World) (ns name : string) (svc : K8sService) :
  clientGet c w ns name = (w1, Ok svc) ->
  runReconcile c r w ns name =
    let s1 := {| world := w1; svcObj := svc; trace := [EvGet ns name] |} in
    let createAnnotation := makeAnnotation (AnnotationKey r) AnnotationEndpointServiceCreate in
    let archerFinalizerName := makeAnnotation (AnnotationKey r) "finalizer" in
    if negb (getAnnotationBoolean createAnnotation svc false) then (Ok tt, s1)
    else if IsZero (DeletionTimestamp svc) then
      bind (if negb (ContainsFinalizer svc archerFinalizerName)
            then bind (putSvc (AddFinalizer svc archerFinalizerName)) (fun _ => Update c)
            else ret tt)
           (fun _ => reconcileEndpointService c r) s1
    else
      bind (if ContainsFinalizer svc archerFinalizerName
            then deleteEndpointService c r else ret tt)
           (fun _ => bind getSvc (fun svc' =>
              bind (putSvc (RemoveFinalizer svc' archerFinalizerName))
                   (fun _ => Update c))) s1.
Proof.
  intros Hget.
  unfold runReconcile, Reconcile, bind at 1 2, putSvc at 1, goErr, Get. simpl.
  rewrite Hget. simpl.
  unfold bind at 1. unfold getSvc at 1. simpl.
  destruct (getAnnotationBoolean _ svc false); simpl; [|reflexivity].
  destruct (IsZero (DeletionTimestamp svc)); reflexivity.
Qed.

(** C4. A tracked service that is not being deleted, for which the lookup
    by the correlation tags returns two or more services: [Reconcile]
    returns the "multiple endpoint services" error, the only calls are
    the load of the object and the lookup, and the object is unchanged. *)
Theorem ambiguous_remote_state_is_error
  (w w1 w2 : World) (ns name : string) (svc : K8sService) (items : list Service)
  (Hget : clientGet c w ns name = (w1, Ok svc))
  (Hcreate : getAnnotationBoolean
               (makeAnnotation (AnnotationKey r) AnnotationEndpointServiceCreate)
               svc false = true)
  (Hlive : IsZero (DeletionTimestamp svc) = true)
  (Hfin : ContainsFinalizer svc (makeAnnotation (AnnotationKey r) "finalizer") = true)
  (Hlist : archerGetService c w1 ["kubernetes"; UID svc] = (w2, Ok items))
  (Hmany : (2 <= length items)%nat) :
  runReconcile c r w ns name =
    (Err (ErrMultiple (Namespace svc) (Name svc)),
     {| world := w2; svcObj := svc;
        trace := [EvGet ns name; EvGetService ["kubernetes"; UID svc]] |}).
Proof.
  rewrite (Reconcile_loaded w w1 ns name svc Hget). simpl.
  rewrite Hcreate, Hlive, Hfin. simpl.
  unfold bind at 1, ret.
  apply (reconcileEndpointService_ambiguous
           {| world := w1; svcObj := svc; trace := [EvGet ns name] |} w2 items);
    assumption.
Qed.

(** C6. A service whose annotation map is nil, has no create key, or maps
    it to a string other than "true": [Reconcile] returns success after
    the load, with no other call and the object as loaded, whatever its
    deletion timestamp and finalizers. *)
Theorem create_gate_is_noop
  (w w1 : World) (ns name : string) (svc : K8sService)
  (Hget : clientGet c w ns name = (w1, Ok svc))
  (Hgate : forall m, Annotations svc = Some m ->
             m !! makeAnnotation (AnnotationKey r) AnnotationEndpointServiceCreate
             <> Some "true") :
  runReconcile c r w ns name =
    (Ok tt, {| world := w1; svcObj := svc; trace := [EvGet ns name] |}).
Proof.
  rewrite (Reconcile_loaded w w1 ns name svc Hget). simpl.
  assert (getAnnotationBoolean
            (makeAnnotation (AnnotationKey r) AnnotationEndpointServiceCreate)
            svc false = false) as ->; [|reflexivity].
  unfold getAnnotationBoolean.
  destruct (Annotations svc) as [m|] eqn:Hm; [|reflexivity].
  specialize (Hgate m eq_refl).
  destruct (m !! _) as [v|]; [|reflexivity].
  destruct (String.eqb_spec v "true") as [->|Hv]; [|reflexivity].
  exfalso. apply Hgate. reflexivity.
Qed.


End ReconcileFacts.

(** C1. The identifier is written under "<prefix>/archer-id" and looked up
    under "<prefix>/id".  A first reconcile creates the endpoint service
    "es-ns-web" and records it; after the deletion request, the next
    reconcile finds no identifier, makes no delete call, and releases the
    object while the endpoint service stays at the broker. *)
Theorem recorded_identifier_not_read_back :
  (forall prefix, makeAnnotation prefix "archer-id" <> makeAnnotation prefix "id") /\
  (forall prefix v svc m,
      getAnnotationString (makeAnnotation prefix "id")
        (setAnnotations svc (Some (<[makeAnnotation prefix "archer-id" := v]> m)))
      = m !! makeAnnotation prefix "id") /\
  fst (simReconcile freshWorld) = Ok tt /\
  map eventName (trace (snd (simReconcile freshWorld))) =
    ["Get"; "Update"; "GetService"; "PostService"; "Update"] /\
  map sID (broker createdWorld) = ["es-ns-web"] /\
  clusterAnnotation createdWorld "cloud.sap/archer-id" = Some "es-ns-web" /\
  clusterAnnotation createdWorld "cloud.sap/id" = None /\
  clusterFinalizers deletingWorld = Some ["cloud.sap/finalizer"] /\
  fst (simReconcile deletingWorld) = Ok tt /\
  map eventName (trace (snd (simReconcile deletingWorld))) = ["Get"; "Update"] /\
  existsb isDelete (trace (snd (simReconcile deletingWorld))) = false /\
  clusterFinalizers (world (snd (simReconcile deletingWorld))) = Some [] /\
  map sID (broker (world (snd (simReconcile deletingWorld)))) = ["es-ns-web"].
Proof.
  split; [exact archer_id_keys_differ|].
  split.
  { intros prefix v svc m. unfold getAnnotationString. simpl.
    apply lookup_insert_ne, archer_id_keys_differ. }
  repeat split; vm_compute; reflexivity.
Qed.

Lemma ambiguous_remote_state_is_error_witness :
  (2 <= length twoMatches)%nat /\
  simReconcile ambiguousWorld =
    (Err (ErrMultiple "ns" "web"),
     {| world := ambiguousWorld; svcObj := trackedK8s;
        trace := [EvGet "ns" "web"; EvGetService ["kubernetes"; "u1"]] |}).
Proof.
  assert (2 <= length twoMatches)%nat as Hmany by (simpl; lia).
  split; [exact Hmany|].
  apply (ambiguous_remote_state_is_error simCollaborators sampleReconciler
           ambiguousWorld ambiguousWorld ambiguousWorld "ns" "web"
           trackedK8s twoMatches);
    [reflexivity | vm_compute; reflexivity | reflexivity
    | vm_compute; reflexivity | reflexivity | exact Hmany].
Defined.

Lemma create_gate_is_noop_witness :
  simReconcile ungatedWorld =
    (Ok tt, {| world := ungatedWorld; svcObj := ungatedK8s;
               trace := [EvGet "ns" "web"] |}).
Proof.
  apply (create_gate_is_noop simCollaborators sampleReconciler
           ungatedWorld ungatedWorld "ns" "web" ungatedK8s).
  - reflexivity.
  - intros m [= <-]. vm_compute. discriminate.
Defined.



(** ** Runs of the sync step on the simulated broker *)

(** A tracked object whose endpoint service is as desired: one lookup, no
    other call. *)
Example reconcile_in_sync_is_quiet :
  fst (simReconcile (syncedWorld "10.0.0.1")) = Ok tt /\
  map eventName (trace (snd (simReconcile (syncedWorld "10.0.0.1")))) =
    ["Get"; "GetService"].
Proof. split; vm_compute; reflexivity. Qed.

(** A reconcile right after the creation finds the endpoint service and
    leaves it alone. *)
Example reconcile_after_create_is_quiet :
  map eventName (trace (snd (simReconcile createdWorld))) = ["Get"; "GetService"].
Proof. vm_compute. reflexivity. Qed.

(** A broker that stores the address with its "/32" suffix is sent an
    update on every reconcile. *)
Example reconcile_suffixed_remote_updates :
  fst (simReconcile (syncedWorld "10.0.0.1/32")) = Ok tt /\
  map eventName (trace (snd (simReconcile (syncedWorld "10.0.0.1/32")))) =
    ["Get"; "GetService"; "PutServiceServiceID"].
Proof. split; vm_compute; reflexivity. Qed.

(** * Further properties of the desired state *)

(** Under one prefix, different suffixes give different keys. *)
Lemma makeAnnotation_suffix_inj (prefix a b : string) :
  makeAnnotation prefix a = makeAnnotation prefix b -> a = b.
Proof.
  unfold makeAnnotation. intros H.
  apply (String.app_inj prefix) in H. injection H as H. exact H.
Qed.

Lemma getAnnotationBoolean_exact (key : string) (svc : K8sService) :
  getAnnotationBoolean key svc false = true <->
  getAnnotationString key svc = Some "true".
Proof.
  unfold getAnnotationBoolean, getAnnotationString.
  destruct (Annotations svc) as [m|]; [|split; discriminate].
  destruct (m !! key) as [v|]; [|split; discriminate].
  rewrite String.eqb_eq. split; [intros ->; reflexivity | intros [= ->]; reflexivity].
Qed.

(** The body in terms of the annotations, field by field. *)
Lemma getBodyFromService_shape (r : Reconciler) (svc : K8sService) (body : Service) :
  getBodyFromService r svc = Ok body ->
  let ann suffix := getAnnotationString (makeAnnotation (AnnotationKey r) suffix) svc in
  let flag suffix := getAnnotationBoolean (makeAnnotation (AnnotationKey r) suffix) svc false in
  sID body = "" /\
  sName body = default (Namespace svc +:+ "-" +:+ Name svc) (ann AnnotationEndpointServiceName) /\
  sDescription body = "Kubernetes service " +:+ Namespace svc +:+ "/" +:+ Name svc /\
  sEnabled body = None /\
  sIPAddresses body = [ClusterIP svc] /\
  sNetworkID body = Some (default (NetworkID r) (ann AnnotationEndpointServiceNetwork)) /\
  sProxyProtocol body =
    (if flag AnnotationEndpointServiceProxyProtocol then Some true else None) /\
  sRequireApproval body =
    (if flag AnnotationEndpointServiceRequireApproval then Some true else None) /\
  sAvailabilityZone body = ann AnnotationEndpointServiceAvailabilityZone /\
  sVisibility body = Some (default "public" (ann AnnotationEndpointServiceVisibility)).
Proof.
  intros H. simpl.
  pose proof (getBodyFromService_inv r svc body H) as Hp.
  unfold getBodyFromService in H. rewrite Hp in H. simpl in H.
  injection H as <-.
  repeat split; split_body_cases; reflexivity.
Qed.

(** X1. The name of the desired state is the name annotation when present
    (an empty value included) and "<namespace>-<name>" otherwise; the
    description and the single address come from the object alone, and no
    identifier is set. *)
Theorem desired_identity_fields
  (r : Reconciler) (svc : K8sService) (body : Service)
  (H : getBodyFromService r svc = Ok body) :
  sName body =
    default (Namespace svc +:+ "-" +:+ Name svc)
      (getAnnotationString
         (makeAnnotation (AnnotationKey r) AnnotationEndpointServiceName) svc) /\
  sDescription body = "Kubernetes service " +:+ Namespace svc +:+ "/" +:+ Name svc /\
  sIPAddresses body = [ClusterIP svc] /\
  sID body = "".
Proof.
  destruct (getBodyFromService_shape r svc body H)
    as (Hid & Hname & Hdesc & _ & Hips & _).
  repeat split; assumption.
Qed.

Lemma desired_identity_fields_witness :
  getBodyFromService sampleReconciler
    (sampleK8s (Some {[ "cloud.sap/archer-service-name" := "" ]}) [] None [80])
  = Ok (setName (sampleService None ["10.0.0.1"] ["kubernetes"; "u1"]) "") /\
  sName (setName (sampleService None ["10.0.0.1"] ["kubernetes"; "u1"]) "") = "".
Proof.
  assert (getBodyFromService sampleReconciler
            (sampleK8s (Some {[ "cloud.sap/archer-service-name" := "" ]}) [] None [80])
          = Ok (setName (sampleService None ["10.0.0.1"] ["kubernetes"; "u1"]) ""))
    as Hbody by (vm_compute; reflexivity).
  split; [exact Hbody|].
  exact (proj1 (desired_identity_fields _ _ _ Hbody)).
Defined.

(** X2. The network id and the visibility of the desired state are never
    nil: the annotation when present, the configured network id and
    "public" otherwise.  The availability zone is the annotation, nil when
    absent. *)
Theorem desired_optional_fields
  (r : Reconciler) (svc : K8sService) (body : Service)
  (H : getBodyFromService r svc = Ok body) :
  sNetworkID body =
    Some (default (NetworkID r)
            (getAnnotationString
               (makeAnnotation (AnnotationKey r) AnnotationEndpointServiceNetwork) svc)) /\
  sVisibility body =
    Some (default "public"
            (getAnnotationString
               (makeAnnotation (AnnotationKey r) AnnotationEndpointServiceVisibility) svc)) /\
  sAvailabilityZone body =
    getAnnotationString
      (makeAnnotation (AnnotationKey r) AnnotationEndpointServiceAvailabilityZone) svc.
Proof.
  destruct (getBodyFromService_shape r svc body H)
    as (_ & _ & _ & _ & _ & Hnet & _ & _ & Hzone & Hvis).
  repeat split; assumption.
Qed.

Lemma desired_optional_fields_witness :
  getBodyFromService sampleReconciler
    (sampleK8s (Some {[ "cloud.sap/archer-visibility" := "private" ]}) [] None [80])
  = Ok (setVisibility (sampleService None ["10.0.0.1"] ["kubernetes"; "u1"])
          (Some "private")) /\
  sNetworkID (setVisibility (sampleService None ["10.0.0.1"] ["kubernetes"; "u1"])
                (Some "private")) = Some "net0".
Proof.
  assert (getBodyFromService sampleReconciler
            (sampleK8s (Some {[ "cloud.sap/archer-visibility" := "private" ]}) [] None [80])
          = Ok (setVisibility (sampleService None ["10.0.0.1"] ["kubernetes"; "u1"])
                  (Some "private")))
    as Hbody by (vm_compute; reflexivity).
  split; [exact Hbody|].
  exact (proj1 (desired_optional_fields _ _ _ Hbody)).
Defined.

(** X3. The proxy-protocol and require-approval flags of the desired state
    are set, to true, exactly when their annotation is the exact string
    "true"; otherwise they are nil, never false.  The enablement flag is
    always nil. *)
Theorem desired_flags
  (r : Reconciler) (svc : K8sService) (body : Service)
  (H : getBodyFromService r svc = Ok body) :
  (sProxyProtocol body = Some true <->
   getAnnotationString
     (makeAnnotation (AnnotationKey r) AnnotationEndpointServiceProxyProtocol) svc
   = Some "true") /\
  (sRequireApproval body = Some true <->
   getAnnotationString
     (makeAnnotation (AnnotationKey r) AnnotationEndpointServiceRequireApproval) svc
   = Some "true") /\
  sProxyProtocol body <> Some false /\
  sRequireApproval body <> Some false /\
  sEnabled body = None.
Proof.
  destruct (getBodyFromService_shape r svc body H)
    as (_ & _ & _ & Hen & _ & _ & Hpp & Hra & _).
  rewrite <- !getAnnotationBoolean_exact.
  rewrite Hpp, Hra.
  destruct (getAnnotationBoolean
              (makeAnnotation (AnnotationKey r) AnnotationEndpointServiceProxyProtocol)
              svc false);
    destruct (getAnnotationBoolean
                (makeAnnotation (AnnotationKey r) AnnotationEndpointServiceRequireApproval)
                svc false);
    repeat split; intros; congruence.
Qed.

Lemma desired_flags_witness :
  getBodyFromService sampleReconciler
    (sampleK8s (Some {[ "cloud.sap/archer-proxy-protocol" := "TRUE" ]}) [] None [80])
  = Ok (sampleService None ["10.0.0.1"] ["kubernetes"; "u1"]) /\
  sProxyProtocol (sampleService None ["10.0.0.1"] ["kubernetes"; "u1"]) <> Some false.
Proof.
  assert (getBodyFromService sampleReconciler
            (sampleK8s (Some {[ "cloud.sap/archer-proxy-protocol" := "TRUE" ]}) [] None [80])
          = Ok (sampleService None ["10.0.0.1"] ["kubernetes"; "u1"]))
    as Hbody by (vm_compute; reflexivity).
  split; [exact Hbody|].
  exact (proj1 (proj2 (proj2 (desired_flags _ _ _ Hbody)))).
Defined.

(** An annotation that [getBodyFromService] does not read has no effect on
    what it returns. *)
Lemma getBodyFromService_frame
  (r : Reconciler) (svc : K8sService) (m : gmap string string) (k v : string) :
  Annotations svc = Some m ->
  (forall suffix, In suffix bodySuffixes ->
                  k <> makeAnnotation (AnnotationKey r) suffix) ->
  getBodyFromService r (setAnnotations svc (Some (<[k := v]> m))) =
  getBodyFromService r svc.
Proof.
  intros Hm Hk.
  assert (forall suffix, In suffix bodySuffixes ->
            getAnnotationString (makeAnnotation (AnnotationKey r) suffix)
              (setAnnotations svc (Some (<[k := v]> m)))
            = getAnnotationString (makeAnnotation (AnnotationKey r) suffix) svc) as Hs.
  { intros suffix Hin. unfold getAnnotationString. rewrite Hm. cbn [Annotations setAnnotations].
    apply lookup_insert_ne, Hk, Hin. }
  assert (forall suffix d, In suffix bodySuffixes ->
            getAnnotationBoolean (makeAnnotation (AnnotationKey r) suffix)
              (setAnnotations svc (Some (<[k := v]> m))) d
            = getAnnotationBoolean (makeAnnotation (AnnotationKey r) suffix) svc d) as Hb.
  { intros suffix d Hin. unfold getAnnotationBoolean. rewrite Hm. cbn [Annotations setAnnotations].
    rewrite lookup_insert_ne by apply Hk, Hin. reflexivity. }
  unfold getBodyFromService, bodyPort, initialBody.
  cbn [Namespace Name UID ClusterIP Ports setAnnotations].
  rewrite !Hs by (unfold bodySuffixes; simpl; tauto).
  rewrite !Hb by (unfold bodySuffixes; simpl; tauto).
  reflexivity.
Qed.

Lemma bookkeeping_keys_unread (prefix suffix : string) :
  In suffix bodySuffixes ->
  makeAnnotation prefix "archer-id" <> makeAnnotation prefix suffix /\
  makeAnnotation prefix AnnotationEndpointServiceCreate <> makeAnnotation prefix suffix.
Proof.
  intros Hin. split; intros H; apply makeAnnotation_suffix_inj in H; subst suffix;
    unfold bodySuffixes in Hin; simpl in Hin;
    repeat (destruct Hin as [Hin|Hin]; [discriminate Hin|]); exact Hin.
Qed.

(** X4. The desired state does not depend on what the controller itself
    writes to the object: recording the identifier under "archer-id", and
    adding or removing the finalizer, leave the result of
    [getBodyFromService] unchanged. *)
Theorem desired_state_ignores_bookkeeping
  (r : Reconciler) (svc svc' : K8sService) (id : string)
  (H : assignAnnotation (makeAnnotation (AnnotationKey r) "archer-id") id svc = Ok svc') :
  getBodyFromService r svc' = getBodyFromService r svc /\
  (forall finalizer,
      getBodyFromService r (AddFinalizer svc finalizer) = getBodyFromService r svc /\
      getBodyFromService r (RemoveFinalizer svc finalizer) = getBodyFromService r svc).
Proof.
  split.
  - unfold assignAnnotation in H.
    destruct (Annotations svc) as [m|] eqn:Hm; [|discriminate H].
    injection H as <-.
    apply getBodyFromService_frame; [exact Hm|].
    intros suffix Hin. apply bookkeeping_keys_unread, Hin.
  - intros finalizer. split.
    + unfold AddFinalizer. destruct (ContainsFinalizer svc finalizer); reflexivity.
    + reflexivity.
Qed.

Lemma desired_state_ignores_bookkeeping_witness :
  assignAnnotation (makeAnnotation (AnnotationKey sampleReconciler) "archer-id") "es-1"
    trackedK8s
  = Ok (sampleK8s (Some {[ "cloud.sap/archer-create" := "true";
                            "cloud.sap/archer-id" := "es-1" ]})
          ["cloud.sap/finalizer"] None [80]) /\
  getBodyFromService sampleReconciler
    (sampleK8s (Some {[ "cloud.sap/archer-create" := "true";
                         "cloud.sap/archer-id" := "es-1" ]})
       ["cloud.sap/finalizer"] None [80])
  = getBodyFromService sampleReconciler trackedK8s.
Proof.
  assert (assignAnnotation (makeAnnotation (AnnotationKey sampleReconciler) "archer-id")
            "es-1" trackedK8s
          = Ok (sampleK8s (Some {[ "cloud.sap/archer-create" := "true";
                                    "cloud.sap/archer-id" := "es-1" ]})
                  ["cloud.sap/finalizer"] None [80]))
    as Hassign by (vm_compute; reflexivity).
  split; [exact Hassign|].
  exact (proj1 (desired_state_ignores_bookkeeping _ _ _ _ Hassign)).
Defined.

Lemma int32_in_range (p : Z) : - 2 ^ 31 <= p < 2 ^ 31 -> int32 p = p.
Proof. intros H. unfold int32. rewrite Z.mod_small; lia. Qed.

Lemma int32_bounds (p : Z) : - 2 ^ 31 <= int32 p < 2 ^ 31.
Proof.
  unfold int32.
  pose proof (Z.mod_pos_bound (p + 2 ^ 31) (2 ^ 32) ltac:(lia)). lia.
Qed.

(** X5. A port annotation that parses to a value of the 32-bit range is
    taken as the port unchanged, whatever the declared ports are and
    without a test that it is a usable port number; in every case the port
    taken from an annotation lies in the 32-bit range. *)
Theorem port_annotation_taken_verbatim
  (r : Reconciler) (svc : K8sService) (port : string) (p : Z)
  (Hann : getAnnotationString
            (makeAnnotation (AnnotationKey r) AnnotationEndpointServicePort) svc
          = Some port)
  (Hparse : Atoi port = Ok p) :
  exists body,
    getBodyFromService r svc = Ok body /\
    - 2 ^ 31 <= sPort body < 2 ^ 31 /\
    (- 2 ^ 31 <= p < 2 ^ 31 -> sPort body = p).
Proof.
  destruct (getBodyFromService_ok r svc (int32 p)) as [body [Hb [Hp _]]].
  { unfold bodyPort. rewrite Hann, Hparse. reflexivity. }
  exists body. split; [exact Hb|]. rewrite Hp.
  split; [apply int32_bounds | apply int32_in_range].
Qed.

Lemma port_annotation_taken_verbatim_witness :
  Atoi "-1" = Ok (-1) /\
  exists body,
    getBodyFromService sampleReconciler
      (sampleK8s (Some {[ "cloud.sap/archer-port" := "-1" ]}) [] None [80; 443])
    = Ok body /\
    - 2 ^ 31 <= sPort body < 2 ^ 31 /\
    (- 2 ^ 31 <= -1 < 2 ^ 31 -> sPort body = -1).
Proof.
  split; [reflexivity|].
  apply (port_annotation_taken_verbatim sampleReconciler
           (sampleK8s (Some {[ "cloud.sap/archer-port" := "-1" ]}) [] None [80; 443])
           "-1" (-1)).
  - vm_compute. reflexivity.
  - reflexivity.
Defined.

Lemma Split_length (s : string) (sep : ascii) :
  length (Split s sep) = S (countByte sep s).
Proof.
  induction s as [|ch s IH]; simpl; [reflexivity|].
  destruct (Ascii.eqb ch sep); simpl.
  - rewrite IH. reflexivity.
  - pose proof (Split_nonempty s sep) as Hn.
    destruct (Split s sep) as [|q qs]; [contradiction|].
    simpl in *. exact IH.
Qed.

(** X6. A tags annotation always adds at least one tag: the desired state
    has three tags plus one for every space of the value, so an empty
    value adds one empty tag. *)
Theorem tags_annotation_count
  (r : Reconciler) (svc : K8sService) (tags : string) (body : Service)
  (Hann : getAnnotationString
            (makeAnnotation (AnnotationKey r) AnnotationEndpointServiceTags) svc
          = Some tags)
  (Hbody : getBodyFromService r svc = Ok body) :
  length (sTags body) = (3 + countByte " "%char tags)%nat /\
  (tags = "" -> sTags body = ["kubernetes"; UID svc; ""]).
Proof.
  destruct (getBodyFromService_ok r svc (sPort body)) as [b [Hb [_ Ht]]].
  { apply getBodyFromService_inv, Hbody. }
  rewrite Hb in Hbody. injection Hbody as <-. rewrite Ht, Hann.
  split.
  - rewrite length_app, Split_length. reflexivity.
  - intros ->. reflexivity.
Qed.

Lemma tags_annotation_count_witness :
  getBodyFromService sampleReconciler
    (sampleK8s (Some {[ "cloud.sap/archer-tags" := "" ]}) [] None [80])
  = Ok (sampleService None ["10.0.0.1"] ["kubernetes"; "u1"; ""]) /\
  length (sTags (sampleService None ["10.0.0.1"] ["kubernetes"; "u1"; ""])) = 3%nat.
Proof.
  assert (getAnnotationString
            (makeAnnotation (AnnotationKey sampleReconciler) AnnotationEndpointServiceTags)
            (sampleK8s (Some {[ "cloud.sap/archer-tags" := "" ]}) [] None [80])
          = Some "") as Hann by (vm_compute; reflexivity).
  assert (getBodyFromService sampleReconciler
            (sampleK8s (Some {[ "cloud.sap/archer-tags" := "" ]}) [] None [80])
          = Ok (sampleService None ["10.0.0.1"] ["kubernetes"; "u1"; ""]))
    as Hbody by (vm_compute; reflexivity).
  split; [exact Hbody|].
  exact (proj1 (tags_annotation_count _ _ _ _ Hann Hbody)).
Defined.

(** * Further properties of the comparison *)

Ltac serviceEqual_step :=
  match goal with
  | |- context [if ?c then Ok false else _] =>
      destruct c eqn:?; simpl;
      [split; [discriminate | intros; intuition discriminate]|]
  end.

(** [serviceEqual] returns true exactly when none of its tests fires. *)
Lemma serviceEqual_Ok_true (s1 s2 : Service) :
  serviceEqual s1 s2 = Ok true <->
  String.eqb (sName s1) (sName s2) = true /\
  String.eqb (sDescription s1) (sDescription s2) = true /\
  enabledDiffer (sEnabled s1) (sEnabled s2) = Ok false /\
  ipAddressesEqual (sIPAddresses s1) (sIPAddresses s2) = true /\
  bothSetAndDiffer String.eqb (sNetworkID s1) (sNetworkID s2) = false /\
  Z.eqb (sPort s1) (sPort s2) = true /\
  bothSetAndDiffer Bool.eqb (sProxyProtocol s1) (sProxyProtocol s2) = false /\
  bothSetAndDiffer Bool.eqb (sRequireApproval s1) (sRequireApproval s2) = false /\
  tagsEqual (sTags s1) (sTags s2) = true /\
  bothSetAndDiffer String.eqb (sVisibility s1) (sVisibility s2) = false.
Proof.
  unfold serviceEqual.
  destruct (String.eqb (sName s1) (sName s2)); simpl;
    [|split; [discriminate | intros; intuition discriminate]].
  destruct (String.eqb (sDescription s1) (sDescription s2)); simpl;
    [|split; [discriminate | intros; intuition discriminate]].
  destruct (enabledDiffer (sEnabled s1) (sEnabled s2)) as [[|]| |]; simpl;
    try (split; [discriminate | intros; intuition discriminate]).
  destruct (ipAddressesEqual (sIPAddresses s1) (sIPAddresses s2)); simpl;
    [|split; [discriminate | intros; intuition discriminate]].
  serviceEqual_step.
  destruct (Z.eqb (sPort s1) (sPort s2)); simpl;
    [|split; [discriminate | intros; intuition discriminate]].
  serviceEqual_step. serviceEqual_step.
  destruct (tagsEqual (sTags s1) (sTags s2)); simpl;
    [|split; [discriminate | intros; intuition discriminate]].
  serviceEqual_step.
  split; intros; repeat split; reflexivity.
Qed.

Lemma bothSetAndDiffer_false {A} (eqb : A -> A -> bool) (p1 p2 : option A) :
  (forall a b, eqb a b = true <-> a = b) ->
  bothSetAndDiffer eqb p1 p2 = false <-> (p1 = None \/ p2 = None \/ p1 = p2).
Proof.
  intros Heqb. destruct p1 as [a|], p2 as [b|]; simpl; try (split; auto; fail).
  rewrite negb_false_iff, Heqb. split.
  - intros ->. auto.
  - intros [H|[H|H]]; congruence.
Qed.

Lemma Bool_eqb_iff (a b : bool) : Bool.eqb a b = true <-> a = b.
Proof. destruct a, b; simpl; split; congruence. Qed.

Lemma enabledDiffer_false (e1 e2 : option bool) :
  enabledDiffer e1 e2 = Ok false <-> (e1 = None \/ (e1 = e2)).
Proof.
  destruct e1 as [a|], e2 as [b|]; simpl.
  - destruct a, b; simpl; split; intros H; try discriminate; auto;
      destruct H as [H|H]; congruence.
  - split; [discriminate | intros [H|H]; discriminate].
  - split; auto.
  - split; auto.
Qed.

(** X7. The whole comparison: [serviceEqual] returns true exactly when
    names, descriptions and ports are equal, the enablement flag is nil on
    the desired side or equal on both, network id, proxy-protocol,
    require-approval and visibility are nil on either side or equal, and
    addresses and tags have equal lengths with every desired element
    matched on the remote side.  Identifier and availability zone take no
    part. *)
Theorem serviceEqual_true_iff (s1 s2 : Service) :
  serviceEqual s1 s2 = Ok true <->
  sName s1 = sName s2 /\
  sDescription s1 = sDescription s2 /\
  (sEnabled s1 = None \/ sEnabled s1 = sEnabled s2) /\
  (length (sIPAddresses s1) = length (sIPAddresses s2) /\
   forall ip, In ip (sIPAddresses s1) ->
              exists ip2, In ip2 (sIPAddresses s2) /\ (ip = ip2 \/ ip = ip2 +:+ "/32")) /\
  (sNetworkID s1 = None \/ sNetworkID s2 = None \/ sNetworkID s1 = sNetworkID s2) /\
  sPort s1 = sPort s2 /\
  (sProxyProtocol s1 = None \/ sProxyProtocol s2 = None \/
   sProxyProtocol s1 = sProxyProtocol s2) /\
  (sRequireApproval s1 = None \/ sRequireApproval s2 = None \/
   sRequireApproval s1 = sRequireApproval s2) /\
  (length (sTags s1) = length (sTags s2) /\
   forall t, In t (sTags s1) -> In t (sTags s2)) /\
  (sVisibility s1 = None \/ sVisibility s2 = None \/ sVisibility s1 = sVisibility s2).
Proof.
  rewrite serviceEqual_Ok_true.
  rewrite !String.eqb_eq, Z.eqb_eq, enabledDiffer_false,
    ipAddressesEqual_spec, tagsEqual_spec.
  rewrite !(bothSetAndDiffer_false String.eqb) by apply String.eqb_eq.
  rewrite !(bothSetAndDiffer_false Bool.eqb) by apply Bool_eqb_iff.
  unfold ipMatches. reflexivity.
Qed.

Lemma ipAddressesEqual_refl (ips : list string) : ipAddressesEqual ips ips = true.
Proof.
  apply ipAddressesEqual_spec. split; [reflexivity|].
  intros ip Hin. exists ip. split; [exact Hin | left; reflexivity].
Qed.

Lemma tagsEqual_refl (tags : list string) : tagsEqual tags tags = true.
Proof. apply tagsEqual_spec. split; [reflexivity | auto]. Qed.

(** X8. Every service is equal to itself: [serviceEqual s s] returns true,
    without a fault, whatever fields are nil. *)
Theorem serviceEqual_reflexive (s : Service) : serviceEqual s s = Ok true.
Proof.
  apply serviceEqual_Ok_true.
  rewrite !String.eqb_refl, Z.eqb_refl, ipAddressesEqual_refl, tagsEqual_refl.
  repeat split.
  - apply enabledDiffer_false. right. reflexivity.
  - apply (bothSetAndDiffer_false String.eqb); [apply String.eqb_eq | auto].
  - apply (bothSetAndDiffer_false Bool.eqb); [apply Bool_eqb_iff | auto].
  - apply (bothSetAndDiffer_false Bool.eqb); [apply Bool_eqb_iff | auto].
  - apply (bothSetAndDiffer_false String.eqb); [apply String.eqb_eq | auto].
Qed.

(** X9. The tag comparison does not count: a desired tag list that repeats
    a tag is judged equal to the remote list in which one of the two copies
    is any other tag, so that remote tag goes unnoticed. *)
Theorem serviceEqual_duplicate_tag_hides_remote_tag
  (s : Service) (x y : string) (tags : list string) :
  serviceEqual (setTags s (x :: x :: tags)) (setTags s (x :: y :: tags)) = Ok true.
Proof.
  apply serviceEqual_Ok_true. simpl.
  rewrite !String.eqb_refl, Z.eqb_refl, ipAddressesEqual_refl.
  repeat split.
  - apply enabledDiffer_false. right. reflexivity.
  - apply (bothSetAndDiffer_false String.eqb); [apply String.eqb_eq | auto].
  - apply (bothSetAndDiffer_false Bool.eqb); [apply Bool_eqb_iff | auto].
  - apply (bothSetAndDiffer_false Bool.eqb); [apply Bool_eqb_iff | auto].
  - apply tagsEqual_spec. split; [reflexivity|].
    intros t [<-|[<-|Ht]]; [left; reflexivity | left; reflexivity | right; right; exact Ht].
  - apply (bothSetAndDiffer_false String.eqb); [apply String.eqb_eq | auto].
Qed.

(** * The desired state against the comparison *)

(** X10. Comparing a desired state that [getBodyFromService] built with
    any remote service returns a boolean: the desired side never sets the
    enablement flag, so the unguarded dereference is not reached. *)
Theorem desired_comparison_never_faults
  (r : Reconciler) (svc : K8sService) (body m : Service)
  (H : getBodyFromService r svc = Ok body) :
  exists b, serviceEqual body m = Ok b.
Proof.
  apply serviceEqual_returns. left.
  destruct (getBodyFromService_shape r svc body H) as (_ & _ & _ & Hen & _).
  exact Hen.
Qed.

Lemma desired_comparison_never_faults_witness :
  getBodyFromService sampleReconciler trackedK8s
  = Ok (sampleService None ["10.0.0.1"] ["kubernetes"; "u1"]) /\
  exists b,
    serviceEqual (sampleService None ["10.0.0.1"] ["kubernetes"; "u1"])
                 (sampleService None ["10.0.0.9"] []) = Ok b.
Proof.
  assert (getBodyFromService sampleReconciler trackedK8s
          = Ok (sampleService None ["10.0.0.1"] ["kubernetes"; "u1"]))
    as Hbody by (vm_compute; reflexivity).
  split; [exact Hbody|].
  exact (desired_comparison_never_faults _ _ _ (sampleService None ["10.0.0.9"] []) Hbody).
Defined.

(** X11. Settings that only the remote side carries are not seen by the
    comparison against a desired state: the enablement flag, the
    identifier and the availability zone of the remote service never
    change the result, and neither does its proxy-protocol or
    require-approval flag unless the corresponding annotation is the
    string "true". *)
Theorem remote_only_settings_undetected
  (r : Reconciler) (svc : K8sService) (body m : Service)
  (H : getBodyFromService r svc = Ok body) :
  (forall e, serviceEqual body (setEnabled m e) = serviceEqual body m) /\
  (forall id, serviceEqual body (setServiceID m id) = serviceEqual body m) /\
  (forall z, serviceEqual body (setAvailabilityZone m z) = serviceEqual body m) /\
  (getAnnotationString
     (makeAnnotation (AnnotationKey r) AnnotationEndpointServiceProxyProtocol) svc
   <> Some "true" ->
   forall v, serviceEqual body (setProxyProtocol m v) = serviceEqual body m) /\
  (getAnnotationString
     (makeAnnotation (AnnotationKey r) AnnotationEndpointServiceRequireApproval) svc
   <> Some "true" ->
   forall v, serviceEqual body (setRequireApproval m v) = serviceEqual body m).
Proof.
  destruct (getBodyFromService_shape r svc body H)
    as (_ & _ & _ & Hen & _ & _ & Hpp & Hra & _).
  split; [|split; [|split; [|split]]].
  - intros e. unfold serviceEqual. simpl. rewrite Hen. reflexivity.
  - intros id. reflexivity.
  - intros z. reflexivity.
  - intros Hoff v. rewrite <- getAnnotationBoolean_exact in Hoff.
    apply not_true_is_false in Hoff. rewrite Hoff in Hpp.
    unfold serviceEqual. simpl. rewrite Hpp. reflexivity.
  - intros Hoff v. rewrite <- getAnnotationBoolean_exact in Hoff.
    apply not_true_is_false in Hoff. rewrite Hoff in Hra.
    unfold serviceEqual. simpl. rewrite Hra. reflexivity.
Qed.

Lemma remote_only_settings_undetected_witness :
  getBodyFromService sampleReconciler trackedK8s
  = Ok (sampleService None ["10.0.0.1"] ["kubernetes"; "u1"]) /\
  serviceEqual (sampleService None ["10.0.0.1"] ["kubernetes"; "u1"])
    (setProxyProtocol
       (setEnabled (sampleService None ["10.0.0.1"] ["kubernetes"; "u1"]) (Some false))
       (Some true))
  = Ok true.
Proof.
  assert (getBodyFromService sampleReconciler trackedK8s
          = Ok (sampleService None ["10.0.0.1"] ["kubernetes"; "u1"]))
    as Hbody by (vm_compute; reflexivity).
  split; [exact Hbody|].
  destruct (remote_only_settings_undetected sampleReconciler trackedK8s
              (sampleService None ["10.0.0.1"] ["kubernetes"; "u1"])
              (setEnabled (sampleService None ["10.0.0.1"] ["kubernetes"; "u1"])
                 (Some false))
              Hbody) as (_ & _ & _ & Hpp & _).
  rewrite Hpp; [reflexivity | vm_compute; discriminate].
Defined.

(** Setting the availability-zone annotation changes the zone of the
    desired state and nothing else. *)
Lemma getBodyFromService_zone
  (r : Reconciler) (svc : K8sService) (a : gmap string string) (z : string) :
  Annotations svc = Some a ->
  getBodyFromService r
    (setAnnotations svc
       (Some (<[makeAnnotation (AnnotationKey r) AnnotationEndpointServiceAvailabilityZone
                := z]> a)))
  = obind (getBodyFromService r svc) (fun b => Ok (setAvailabilityZone b (Some z))).
Proof.
  intros Ha.
  set (svc' := setAnnotations svc _).
  assert (getAnnotationString
            (makeAnnotation (AnnotationKey r) AnnotationEndpointServiceAvailabilityZone) svc'
          = Some z) as Hz.
  { unfold getAnnotationString, svc'. cbn [Annotations setAnnotations].
    apply lookup_insert_eq. }
  assert (forall suffix, suffix <> AnnotationEndpointServiceAvailabilityZone ->
            getAnnotationString (makeAnnotation (AnnotationKey r) suffix) svc'
            = getAnnotationString (makeAnnotation (AnnotationKey r) suffix) svc) as Hs.
  { intros suffix Hne. unfold getAnnotationString, svc'. rewrite Ha.
    cbn [Annotations setAnnotations]. apply lookup_insert_ne.
    intros Heq. apply makeAnnotation_suffix_inj in Heq. congruence. }
  assert (forall suffix d, suffix <> AnnotationEndpointServiceAvailabilityZone ->
            getAnnotationBoolean (makeAnnotation (AnnotationKey r) suffix) svc' d
            = getAnnotationBoolean (makeAnnotation (AnnotationKey r) suffix) svc d) as Hb.
  { intros suffix d Hne. unfold getAnnotationBoolean, svc'. rewrite Ha.
    cbn [Annotations setAnnotations]. rewrite lookup_insert_ne; [reflexivity|].
    intros Heq. apply makeAnnotation_suffix_inj in Heq. congruence. }
  unfold getBodyFromService, bodyPort, initialBody.
  rewrite Hz.
  rewrite !Hs by discriminate.
  rewrite !Hb by discriminate.
  unfold svc'. cbn [Namespace Name UID ClusterIP Ports setAnnotations].
  match goal with
  | |- obind ?port _ = _ => destruct port as [p| |]; simpl; try reflexivity
  end.
  split_body_cases; reflexivity.
Qed.

(** * Further properties of [Reconcile] *)

Section Emits.
Context {World : Type}.

Lemma emits_weaken {A} (n n' : nat) (ok : Event -> bool) (m : M World A) :
  emits n ok m -> (n <= n')%nat -> emits n' ok m.
Proof.
  intros H Hle s. destruct (H s) as [evs [Ht [Hn Hok]]].
  exists evs. repeat split; [exact Ht | lia | exact Hok].
Qed.

Lemma emits_silent {A} (ok : Event -> bool) (m : M World A) :
  (forall s, trace (snd (m s)) = trace s) -> emits 0 ok m.
Proof.
  intros H s. exists []. rewrite app_nil_r. repeat split; [apply H | simpl; lia].
Qed.

Lemma emits_one {A} (ok : Event -> bool) (m : M World A) (ev : Event) :
  (forall s, trace (snd (m s)) = trace s ++ [ev]) ->
  ok ev = true ->
  emits (if isMutation ev then 1 else 0) ok m.
Proof.
  intros H Hok s. exists [ev]. repeat split; [apply H | | simpl; rewrite Hok; reflexivity].
  simpl. destruct (isMutation ev); simpl; lia.
Qed.

Lemma emits_bind {A B} (a b : nat) (ok : Event -> bool)
    (m : M World A) (f : A -> M World B) :
  emits a ok m -> (forall x, emits b ok (f x)) -> emits (a + b) ok (bind m f).
Proof.
  intros Hm Hf s. destruct (Hm s) as [e1 [Ht1 [Hn1 Hok1]]].
  unfold bind. destruct (m s) as [[x|e|p] s1]; simpl in Ht1.
  - destruct (Hf x s1) as [e2 [Ht2 [Hn2 Hok2]]].
    exists (e1 ++ e2). repeat split.
    + rewrite Ht2, Ht1, app_assoc. reflexivity.
    + rewrite List.filter_app, length_app. lia.
    + rewrite forallb_app, Hok1, Hok2. reflexivity.
  - exists e1. repeat split; [exact Ht1 | lia | exact Hok1].
  - exists e1. repeat split; [exact Ht1 | lia | exact Hok1].
Qed.

Lemma emits_bind_l {A B} (n : nat) (ok : Event -> bool)
    (m : M World A) (f : A -> M World B) :
  emits 0 ok m -> (forall x, emits n ok (f x)) -> emits n ok (bind m f).
Proof. intros Hm Hf. apply (emits_bind 0 n ok m f Hm Hf). Qed.

Lemma emits_bind_r {A B} (n : nat) (ok : Event -> bool)
    (m : M World A) (f : A -> M World B) :
  emits n ok m -> (forall x, emits 0 ok (f x)) -> emits n ok (bind m f).
Proof.
  intros Hm Hf. apply (emits_weaken (n + 0)); [|lia].
  apply (emits_bind n 0 ok m f Hm Hf).
Qed.

Lemma emits_goErr (n : nat) (ok : Event -> bool) (m : M World unit) :
  emits n ok m -> emits n ok (goErr m).
Proof.
  intros H s. destruct (H s) as [evs Hevs]. exists evs.
  unfold goErr. destruct (m s) as [[x|e|p] s1]; exact Hevs.
Qed.

End Emits.

Section ReconcileMore.
Context {World : Type} (c : Collaborators World) (r : Reconciler).

Lemma archerCall_trace {A} (ev : Event) (f : World -> World * outcome A) (s : St World) :
  trace (snd (archerCall ev f s)) = trace s ++ [ev].
Proof. unfold archerCall. destruct (f (world s)) as [w res]. reflexivity. Qed.

Lemma Get_trace (ns name : string) (s : St World) :
  trace (snd (Get c ns name s)) = trace s ++ [EvGet ns name].
Proof.
  unfold Get. destruct (clientGet c (world s) ns name) as [w [o|e|p]]; reflexivity.
Qed.

Lemma emits_Update (ok : Event -> bool) :
  (forall o, ok (EvUpdate o) = true) -> emits 0 ok (Update c).
Proof.
  intros Hok s. exists [EvUpdate (svcObj s)].
  repeat split; [apply Update_trace | simpl; lia | simpl; rewrite Hok; reflexivity].
Qed.

(** The three helpers in one step each. *)
Lemma updateEndpointService_eq (m : Service) (s : St World) :
  updateEndpointService c r m s =
  match getBodyFromService r (svcObj s) with
  | Ok body =>
      match serviceEqual body m with
      | Ok true => (Ok tt, s)
      | Ok false => PutServiceServiceID c (sID m) (updatableOf body) s
      | Err e => (Err e, s)
      | Panic p => (Panic p, s)
      end
  | Err e => (Err e, s)
  | Panic p => (Panic p, s)
  end.
Proof.
  unfold updateEndpointService, bind, getSvc, lift.
  destruct (getBodyFromService r (svcObj s)) as [body|e|p]; try reflexivity.
  destruct (serviceEqual body m) as [[|]|e|p]; reflexivity.
Qed.

Lemma createEndpointService_eq (s : St World) :
  createEndpointService c r s =
  match getBodyFromService r (svcObj s) with
  | Ok body =>
      let posted w :=
        {| world := w; svcObj := svcObj s; trace := trace s ++ [EvPostService body] |} in
      match archerPostService c (world s) body with
      | (w, Ok res) =>
          match Annotations (svcObj s) with
          | Some a =>
              Update c
                {| world := w;
                   svcObj := setAnnotations (svcObj s)
                               (Some (<[makeAnnotation (AnnotationKey r) "archer-id"
                                        := sID res]> a));
                   trace := trace s ++ [EvPostService body] |}
          | None => (Panic AssignmentToNilMap, posted w)
          end
      | (w, Err e) => (Err e, posted w)
      | (w, Panic p) => (Panic p, posted w)
      end
  | Err e => (Err e, s)
  | Panic p => (Panic p, s)
  end.
Proof.
  unfold createEndpointService, bind, getSvc, lift, PostService, archerCall, putSvc,
    assignAnnotation.
  destruct (getBodyFromService r (svcObj s)) as [body|e|p]; try reflexivity.
  simpl. destruct (archerPostService c (world s) body) as [w [res|e|p]]; try reflexivity.
  simpl. destruct (Annotations (svcObj s)) as [a|]; reflexivity.
Qed.

Lemma reconcileEndpointService_eq (s : St World) :
  reconcileEndpointService c r s =
  let tags := ["kubernetes"; UID (svcObj s)] in
  let looked w :=
    {| world := w; svcObj := svcObj s; trace := trace s ++ [EvGetService tags] |} in
  match archerGetService c (world s) tags with
  | (w, Ok []) => createEndpointService c r (looked w)
  | (w, Ok [m]) => updateEndpointService c r m (looked w)
  | (w, Ok _) => (Err (ErrMultiple (Namespace (svcObj s)) (Name (svcObj s))), looked w)
  | (w, Err e) => (Err e, looked w)
  | (w, Panic p) => (Panic p, looked w)
  end.
Proof.
  unfold reconcileEndpointService, bind, getSvc, GetService, archerCall. simpl.
  destruct (archerGetService c (world s) ["kubernetes"; UID (svcObj s)])
    as [w [items|e|p]]; try reflexivity.
  destruct items as [|m [|m' rest]]; reflexivity.
Qed.

Lemma create_annotation_map (key : string) (svc : K8sService) :
  getAnnotationBoolean key svc false = true -> exists a, Annotations svc = Some a.
Proof.
  unfold getAnnotationBoolean. destruct (Annotations svc) as [a|]; [eauto | discriminate].
Qed.

(** A tracked object that is not being deleted goes straight to the sync
    step. *)
Lemma Reconcile_tracked (w w1 : World) (ns name : string) (svc : K8sService) :
  clientGet c w ns name = (w1, Ok svc) ->
  getAnnotationBoolean
    (makeAnnotation (AnnotationKey r) AnnotationEndpointServiceCreate) svc false = true ->
  IsZero (DeletionTimestamp svc) = true ->
  ContainsFinalizer svc (makeAnnotation (AnnotationKey r) "finalizer") = true ->
  runReconcile c r w ns name =
  reconcileEndpointService c r
    {| world := w1; svcObj := svc; trace := [EvGet ns name] |}.
Proof.
  intros Hget Hcreate Hlive Hfin.
  rewrite (Reconcile_loaded c r w w1 ns name svc Hget). simpl.
  rewrite Hcreate, Hlive, Hfin. reflexivity.
Qed.

(** X12. Idempotence: for a tracked object that is not being deleted, with
    one endpoint service found that [serviceEqual] judges equal to the
    desired state, [Reconcile] returns success after the load and the
    lookup, with no other call and the object unchanged. *)
Theorem reconcile_in_sync_is_noop
  (w w1 w2 : World) (ns name : string) (svc : K8sService) (body m : Service)
  (Hget : clientGet c w ns name = (w1, Ok svc))
  (Hcreate : getAnnotationBoolean
               (makeAnnotation (AnnotationKey r) AnnotationEndpointServiceCreate)
               svc false = true)
  (Hlive : IsZero (DeletionTimestamp svc) = true)
  (Hfin : ContainsFinalizer svc (makeAnnotation (AnnotationKey r) "finalizer") = true)
  (Hlist : archerGetService c w1 ["kubernetes"; UID svc] = (w2, Ok [m]))
  (Hbody : getBodyFromService r svc = Ok body)
  (Heq : serviceEqual body m = Ok true) :
  runReconcile c r w ns name =
    (Ok tt, {| world := w2; svcObj := svc;
               trace := [EvGet ns name; EvGetService ["kubernetes"; UID svc]] |}).
Proof.
  rewrite (Reconcile_tracked w w1 ns name svc Hget Hcreate Hlive Hfin).
  rewrite reconcileEndpointService_eq. simpl. rewrite Hlist.
  rewrite updateEndpointService_eq. simpl. rewrite Hbody, Heq. reflexivity.
Qed.

(** X13. Drift: in the same situation with [serviceEqual] returning false,
    [Reconcile] sends exactly one update, keyed by the identifier of the
    service found (not by an annotation), carrying description, addresses,
    name, port, flags, tags and visibility of the desired state and no
    enablement flag; its result is the result of that call, and the object
    is unchanged. *)
Theorem reconcile_drift_sends_one_update
  (w w1 w2 : World) (ns name : string) (svc : K8sService) (body m : Service)
  (Hget : clientGet c w ns name = (w1, Ok svc))
  (Hcreate : getAnnotationBoolean
               (makeAnnotation (AnnotationKey r) AnnotationEndpointServiceCreate)
               svc false = true)
  (Hlive : IsZero (DeletionTimestamp svc) = true)
  (Hfin : ContainsFinalizer svc (makeAnnotation (AnnotationKey r) "finalizer") = true)
  (Hlist : archerGetService c w1 ["kubernetes"; UID svc] = (w2, Ok [m]))
  (Hbody : getBodyFromService r svc = Ok body)
  (Hne : serviceEqual body m = Ok false) :
  runReconcile c r w ns name =
    (snd (archerPutService c w2 (sID m) (updatableOf body)),
     {| world := fst (archerPutService c w2 (sID m) (updatableOf body));
        svcObj := svc;
        trace := [EvGet ns name; EvGetService ["kubernetes"; UID svc];
                  EvPutService (sID m) (updatableOf body)] |}) /\
  uEnabled (updatableOf body) = None /\
  uName (updatableOf body) = Some (sName body) /\
  uDescription (updatableOf body) = Some (sDescription body) /\
  uPort (updatableOf body) = Some (sPort body) /\
  uIPAddresses (updatableOf body) = [ClusterIP svc] /\
  uTags (updatableOf body) = sTags body.
Proof.
  split.
  - rewrite (Reconcile_tracked w w1 ns name svc Hget Hcreate Hlive Hfin).
    rewrite reconcileEndpointService_eq. simpl. rewrite Hlist.
    rewrite updateEndpointService_eq. simpl. rewrite Hbody, Hne.
    unfold PutServiceServiceID, archerCall. simpl.
    destruct (archerPutService c w2 (sID m) (updatableOf body)) as [w3 res].
    reflexivity.
  - destruct (getBodyFromService_shape r svc body Hbody)
      as (_ & _ & _ & Hen & Hips & _).
    simpl. rewrite Hen, Hips. repeat split.
Qed.

(** X14. Creation: for a tracked object that is not being deleted, with no
    endpoint service found, [Reconcile] posts the desired state; when the
    call succeeds it writes the returned identifier under
    "<prefix>/archer-id", keeping all other annotations, and persists the
    object; when the call fails it returns the error with the object
    unchanged and not persisted. *)
Theorem reconcile_create_path
  (w w1 w2 : World) (ns name : string) (svc : K8sService) (body : Service)
  (Hget : clientGet c w ns name = (w1, Ok svc))
  (Hcreate : getAnnotationBoolean
               (makeAnnotation (AnnotationKey r) AnnotationEndpointServiceCreate)
               svc false = true)
  (Hlive : IsZero (DeletionTimestamp svc) = true)
  (Hfin : ContainsFinalizer svc (makeAnnotation (AnnotationKey r) "finalizer") = true)
  (Hlist : archerGetService c w1 ["kubernetes"; UID svc] = (w2, Ok []))
  (Hbody : getBodyFromService r svc = Ok body) :
  exists a,
    Annotations svc = Some a /\
    let called := [EvGet ns name; EvGetService ["kubernetes"; UID svc];
                   EvPostService body] in
    match archerPostService c w2 body with
    | (w3, Ok res) =>
        runReconcile c r w ns name =
          Update c
            {| world := w3;
               svcObj := setAnnotations svc
                           (Some (<[makeAnnotation (AnnotationKey r) "archer-id"
                                    := sID res]> a));
               trace := called |}
    | (w3, Err e) =>
        runReconcile c r w ns name =
          (Err e, {| world := w3; svcObj := svc; trace := called |})
    | (w3, Panic p) =>
        runReconcile c r w ns name =
          (Panic p, {| world := w3; svcObj := svc; trace := called |})
    end.
Proof.
  destruct (create_annotation_map _ svc Hcreate) as [a Ha].
  exists a. split; [exact Ha|].
  rewrite (Reconcile_tracked w w1 ns name svc Hget Hcreate Hlive Hfin).
  rewrite reconcileEndpointService_eq. simpl. rewrite Hlist.
  rewrite createEndpointService_eq. simpl. rewrite Hbody.
  destruct (archerPostService c w2 body) as [w3 [res|e|p]]; try reflexivity.
  rewrite Ha. reflexivity.
Qed.

(** X15. Validation comes after the lookup: for a tracked object that is
    not being deleted and at most one endpoint service found, an error of
    [getBodyFromService] is returned after the load and the lookup, with no
    create or update call. *)
Theorem reconcile_validation_error_after_lookup
  (w w1 w2 : World) (ns name : string) (svc : K8sService)
  (items : list Service) (e : error)
  (Hget : clientGet c w ns name = (w1, Ok svc))
  (Hcreate : getAnnotationBoolean
               (makeAnnotation (AnnotationKey r) AnnotationEndpointServiceCreate)
               svc false = true)
  (Hlive : IsZero (DeletionTimestamp svc) = true)
  (Hfin : ContainsFinalizer svc (makeAnnotation (AnnotationKey r) "finalizer") = true)
  (Hlist : archerGetService c w1 ["kubernetes"; UID svc] = (w2, Ok items))
  (Hfew : (length items <= 1)%nat)
  (Hbody : getBodyFromService r svc = Err e) :
  runReconcile c r w ns name =
    (Err e, {| world := w2; svcObj := svc;
               trace := [EvGet ns name; EvGetService ["kubernetes"; UID svc]] |}).
Proof.
  rewrite (Reconcile_tracked w w1 ns name svc Hget Hcreate Hlive Hfin).
  rewrite reconcileEndpointService_eq. simpl. rewrite Hlist.
  destruct items as [|m [|m' rest]]; simpl in Hfew; try lia.
  - rewrite createEndpointService_eq. simpl. rewrite Hbody. reflexivity.
  - rewrite updateEndpointService_eq. simpl. rewrite Hbody. reflexivity.
Qed.

(** X16. A failed lookup is returned as it is: no create, update or delete
    call follows, and the object is unchanged. *)
Theorem reconcile_lookup_failure
  (w w1 w2 : World) (ns name : string) (svc : K8sService) (e : error)
  (Hget : clientGet c w ns name = (w1, Ok svc))
  (Hcreate : getAnnotationBoolean
               (makeAnnotation (AnnotationKey r) AnnotationEndpointServiceCreate)
               svc false = true)
  (Hlive : IsZero (DeletionTimestamp svc) = true)
  (Hfin : ContainsFinalizer svc (makeAnnotation (AnnotationKey r) "finalizer") = true)
  (Hlist : archerGetService c w1 ["kubernetes"; UID svc] = (w2, Err e)) :
  runReconcile c r w ns name =
    (Err e, {| world := w2; svcObj := svc;
               trace := [EvGet ns name; EvGetService ["kubernetes"; UID svc]] |}).
Proof.
  rewrite (Reconcile_tracked w w1 ns name svc Hget Hcreate Hlive Hfin).
  rewrite reconcileEndpointService_eq. simpl. rewrite Hlist. reflexivity.
Qed.

(** X17. An object that cannot be loaded: a not-found error ends the
    reconcile with success, any other error is returned; in both cases no
    further call is made. *)
Theorem reconcile_load_failure
  (w w1 : World) (ns name : string) (e : error)
  (Hget : clientGet c w ns name = (w1, Err e)) :
  runReconcile c r w ns name =
    (match e with ErrNotFound => Ok tt | _ => Err e end,
     {| world := w1; svcObj := zeroK8sService; trace := [EvGet ns name] |}).
Proof.
  unfold runReconcile, Reconcile, bind, putSvc, goErr, Get. simpl.
  rewrite Hget. simpl. destruct e; reflexivity.
Qed.

Lemma RemoveFinalizer_absent (svc : K8sService) (finalizer : string) :
  ContainsFinalizer svc finalizer = false -> RemoveFinalizer svc finalizer = svc.
Proof.
  unfold ContainsFinalizer, RemoveFinalizer, setFinalizers.
  destruct svc as [ns name uid ann fins del ip ports]. simpl.
  intros H. f_equal.
  induction fins as [|f fins IH]; simpl in *; [reflexivity|].
  apply orb_false_iff in H as [Hf Hrest].
  rewrite String.eqb_sym, Hf. simpl. rewrite (IH Hrest). reflexivity.
Qed.

(** X18. Registration comes first: for an object with the create
    annotation that is not being deleted and lacks the finalizer,
    [Reconcile] appends the finalizer and persists the object before any
    call to the broker; when that fails the error is returned and the
    broker is not called, when it succeeds the sync step runs on the object
    the server returned. *)
Theorem reconcile_registers_finalizer_first
  (w w1 : World) (ns name : string) (svc : K8sService)
  (Hget : clientGet c w ns name = (w1, Ok svc))
  (Hcreate : getAnnotationBoolean
               (makeAnnotation (AnnotationKey r) AnnotationEndpointServiceCreate)
               svc false = true)
  (Hlive : IsZero (DeletionTimestamp svc) = true)
  (Hnew : ContainsFinalizer svc (makeAnnotation (AnnotationKey r) "finalizer") = false) :
  let registered := AddFinalizer svc (makeAnnotation (AnnotationKey r) "finalizer") in
  let called := [EvGet ns name; EvUpdate registered] in
  Finalizers registered =
    Finalizers svc ++ [makeAnnotation (AnnotationKey r) "finalizer"] /\
  match clientUpdate c w1 registered with
  | (w2, Ok o) =>
      runReconcile c r w ns name =
        reconcileEndpointService c r {| world := w2; svcObj := o; trace := called |}
  | (w2, Err e) =>
      runReconcile c r w ns name =
        (Err e, {| world := w2; svcObj := registered; trace := called |})
  | (w2, Panic p) =>
      runReconcile c r w ns name =
        (Panic p, {| world := w2; svcObj := registered; trace := called |})
  end.
Proof.
  intros registered called.
  split.
  { unfold registered, AddFinalizer. rewrite Hnew. reflexivity. }
  rewrite (Reconcile_loaded c r w w1 ns name svc Hget). simpl.
  rewrite Hcreate, Hlive, Hnew. simpl.
  unfold bind, putSvc, Update. simpl. fold registered.
  destruct (clientUpdate c w1 registered) as [w2 [o|e|p]]; reflexivity.
Qed.

(** X19. An object that is being deleted and does not carry the finalizer
    (create annotation true): [Reconcile] makes no call to the broker, not
    even when an identifier annotation is present, and still persists the
    object, unchanged. *)
Theorem reconcile_deleting_without_finalizer
  (w w1 : World) (ns name : string) (svc : K8sService)
  (Hget : clientGet c w ns name = (w1, Ok svc))
  (Hcreate : getAnnotationBoolean
               (makeAnnotation (AnnotationKey r) AnnotationEndpointServiceCreate)
               svc false = true)
  (Hdel : IsZero (DeletionTimestamp svc) = false)
  (Hnofin : ContainsFinalizer svc (makeAnnotation (AnnotationKey r) "finalizer") = false) :
  runReconcile c r w ns name =
    Update c {| world := w1; svcObj := svc; trace := [EvGet ns name] |} /\
  trace (snd (runReconcile c r w ns name)) = [EvGet ns name; EvUpdate svc].
Proof.
  assert (runReconcile c r w ns name =
          Update c {| world := w1; svcObj := svc; trace := [EvGet ns name] |}) as Hrun.
  { rewrite (Reconcile_loaded c r w w1 ns name svc Hget). simpl.
    rewrite Hcreate, Hdel, Hnofin. simpl.
    unfold bind, ret, getSvc, putSvc. simpl.
    rewrite (RemoveFinalizer_absent svc _ Hnofin). reflexivity. }
  split; [exact Hrun|]. rewrite Hrun, Update_trace. reflexivity.
Qed.

(** Calls of the helpers. *)
Lemma emits_createEndpointService (ok : Event -> bool) :
  (forall ev, isDelete ev = false -> ok ev = true) ->
  emits 1 ok (createEndpointService c r).
Proof.
  intros Hok. unfold createEndpointService.
  apply emits_bind_l; [apply emits_silent; reflexivity|]. intros svc.
  apply emits_bind_l; [apply emits_silent; reflexivity|]. intros body.
  apply emits_bind_r.
  - apply (emits_one ok (PostService c body) (EvPostService body));
      [intros s; apply archerCall_trace | apply Hok; reflexivity].
  - intros res.
    apply emits_bind_l; [apply emits_silent; reflexivity|]. intros svc'.
    apply emits_bind_l; [apply emits_silent; reflexivity|]. intros _.
    apply emits_Update. intros o. apply Hok. reflexivity.
Qed.

Lemma emits_updateEndpointService (ok : Event -> bool) (m : Service) :
  (forall ev, isDelete ev = false -> ok ev = true) ->
  emits 1 ok (updateEndpointService c r m).
Proof.
  intros Hok. unfold updateEndpointService.
  apply emits_bind_l; [apply emits_silent; reflexivity|]. intros svc.
  apply emits_bind_l; [apply emits_silent; reflexivity|]. intros body.
  apply emits_bind_l; [apply emits_silent; reflexivity|]. intros same.
  destruct (negb same).
  - match goal with
    | |- emits 1 ok (PutServiceServiceID c ?id ?b) =>
        apply (emits_one ok (PutServiceServiceID c id b) (EvPutService id b));
          [intros s; apply archerCall_trace | apply Hok; reflexivity]
    end.
  - apply (emits_weaken 0); [apply emits_silent; reflexivity | lia].
Qed.

Lemma emits_reconcileEndpointService (ok : Event -> bool) :
  (forall ev, isDelete ev = false -> ok ev = true) ->
  emits 1 ok (reconcileEndpointService c r).
Proof.
  intros Hok. unfold reconcileEndpointService.
  apply emits_bind_l; [apply emits_silent; reflexivity|]. intros svc.
  apply emits_bind_l.
  - apply (emits_one ok (GetService c ["kubernetes"; UID svc])
             (EvGetService ["kubernetes"; UID svc]));
      [intros s; apply archerCall_trace | apply Hok; reflexivity].
  - intros items. destruct items as [|m [|m' rest]].
    + apply emits_createEndpointService, Hok.
    + apply emits_updateEndpointService, Hok.
    + apply (emits_weaken 0); [apply emits_silent; reflexivity | lia].
Qed.

Lemma emits_deleteEndpointService :
  emits 1 anyEvent (deleteEndpointService c r).
Proof.
  unfold deleteEndpointService.
  apply emits_bind_l; [apply emits_silent; reflexivity|]. intros svc.
  destruct (getAnnotationString _ svc) as [id|].
  - apply (emits_one anyEvent (DeleteServiceServiceID c id) (EvDeleteService id));
      [intros s; apply archerCall_trace | reflexivity].
  - apply (emits_weaken 0); [apply emits_silent; reflexivity | lia].
Qed.

(** The part of [Reconcile] that runs for an object that is not being
    deleted. *)
Lemma emits_live_branch (ok : Event -> bool) (svc : K8sService) :
  (forall ev, isDelete ev = false -> ok ev = true) ->
  emits 1 ok
    (bind (if negb (ContainsFinalizer svc (makeAnnotation (AnnotationKey r) "finalizer"))
           then bind (putSvc (AddFinalizer svc (makeAnnotation (AnnotationKey r) "finalizer")))
                     (fun _ => Update c)
           else ret tt)
          (fun _ => reconcileEndpointService c r)).
Proof.
  intros Hok. apply emits_bind_l.
  - destruct (negb _).
    + apply emits_bind_l; [apply emits_silent; reflexivity|]. intros _.
      apply emits_Update. intros o. apply Hok. reflexivity.
    + apply emits_silent. reflexivity.
  - intros _. apply emits_reconcileEndpointService, Hok.
Qed.

(** X20. An object that is not being deleted never causes a delete call,
    whatever the collaborators answer. *)
Theorem live_object_never_deleted
  (w w1 : World) (ns name : string) (svc : K8sService)
  (Hget : clientGet c w ns name = (w1, Ok svc))
  (Hlive : IsZero (DeletionTimestamp svc) = true) :
  existsb isDelete (trace (snd (runReconcile c r w ns name))) = false.
Proof.
  rewrite (Reconcile_loaded c r w w1 ns name svc Hget). simpl.
  destruct (getAnnotationBoolean _ svc false); simpl; [|reflexivity].
  rewrite Hlive.
  destruct (emits_live_branch notDelete svc) with
    (s := {| world := w1; svcObj := svc; trace := [EvGet ns name] |})
    as [evs [Ht [_ Hok]]].
  { intros ev Hev. unfold notDelete. rewrite Hev. reflexivity. }
  rewrite Ht. simpl.
  clear Ht. induction evs as [|ev evs IH]; simpl in *; [reflexivity|].
  apply andb_true_iff in Hok as [Hev Hrest].
  unfold notDelete in Hev. apply negb_true_iff in Hev.
  rewrite Hev. simpl. apply IH, Hrest.
Qed.

Lemma emits_Reconcile (ns name : string) :
  emits 1 anyEvent (Reconcile c r ns name).
Proof.
  unfold Reconcile.
  apply emits_bind_l; [apply emits_silent; reflexivity|]. intros _.
  apply emits_bind_l.
  { apply emits_goErr.
    apply (emits_one anyEvent (Get c ns name) (EvGet ns name));
      [intros s; apply Get_trace | reflexivity]. }
  intros [e|].
  { apply (emits_weaken 0); [|lia]. apply emits_silent.
    intros s. unfold IgnoreNotFound. destruct e; reflexivity. }
  apply emits_bind_l; [apply emits_silent; reflexivity|]. intros svc.
  destruct (negb (getAnnotationBoolean _ svc false)).
  { apply (emits_weaken 0); [apply emits_silent; reflexivity | lia]. }
  destruct (IsZero (DeletionTimestamp svc)).
  - apply emits_live_branch. reflexivity.
  - apply emits_bind_r.
    + destruct (ContainsFinalizer svc _).
      * apply emits_deleteEndpointService.
      * apply (emits_weaken 0); [apply emits_silent; reflexivity | lia].
    + intros _.
      apply emits_bind_l; [apply emits_silent; reflexivity|]. intros svc'.
      apply emits_bind_l; [apply emits_silent; reflexivity|]. intros _.
      apply emits_Update. reflexivity.
Qed.

(** X21. One reconcile changes the broker at most once: among the calls of
    a run there is at most one create, update or delete call, whatever the
    object and whatever the collaborators answer. *)
Theorem reconcile_at_most_one_mutation (w : World) (ns name : string) :
  (length (List.filter isMutation (trace (snd (runReconcile c r w ns name)))) <= 1)%nat.
Proof.
  destruct (emits_Reconcile ns name
              {| world := w; svcObj := zeroK8sService; trace := [] |})
    as [evs [Ht [Hn _]]].
  unfold runReconcile. rewrite Ht. exact Hn.
Qed.

(** X22. [createEndpointService] on an object whose annotation map is nil:
    the endpoint service is created at the broker, then the assignment of
    the identifier panics; nothing is persisted. *)
Theorem createEndpointService_nil_annotations
  (s : St World) (body res : Service) (w : World)
  (Hnil : Annotations (svcObj s) = None)
  (Hbody : getBodyFromService r (svcObj s) = Ok body)
  (Hpost : archerPostService c (world s) body = (w, Ok res)) :
  createEndpointService c r s =
    (Panic AssignmentToNilMap,
     {| world := w; svcObj := svcObj s; trace := trace s ++ [EvPostService body] |}).
Proof.
  rewrite createEndpointService_eq. simpl. rewrite Hbody, Hpost, Hnil. reflexivity.
Qed.

(** X23. The availability-zone annotation matters at creation only:
    setting or changing it on an object does not change what
    [updateEndpointService] returns, which calls it makes, or the world it
    leaves. *)
Theorem zone_annotation_change_is_ignored
  (s : St World) (a : gmap string string) (z : string) (m : Service)
  (Ha : Annotations (svcObj s) = Some a) :
  let s' :=
    {| world := world s;
       svcObj := setAnnotations (svcObj s)
                   (Some (<[makeAnnotation (AnnotationKey r)
                             AnnotationEndpointServiceAvailabilityZone := z]> a));
       trace := trace s |} in
  fst (updateEndpointService c r m s') = fst (updateEndpointService c r m s) /\
  trace (snd (updateEndpointService c r m s')) =
    trace (snd (updateEndpointService c r m s)) /\
  world (snd (updateEndpointService c r m s')) =
    world (snd (updateEndpointService c r m s)).
Proof.
  intros s'. rewrite !updateEndpointService_eq.
  unfold s'. cbn [svcObj].
  rewrite (getBodyFromService_zone r (svcObj s) a z Ha).
  destruct (getBodyFromService r (svcObj s)) as [body|e|p]; simpl;
    [|repeat split; reflexivity | repeat split; reflexivity].
  change (serviceEqual (setAvailabilityZone body (Some z)) m)
    with (serviceEqual body m).
  destruct (serviceEqual body m) as [[|]|e|p]; try (repeat split; reflexivity).
  change (updatableOf (setAvailabilityZone body (Some z))) with (updatableOf body).
  unfold PutServiceServiceID, archerCall. simpl.
  destruct (archerPutService c (world s) (sID m) (updatableOf body)) as [w3 res].
  repeat split; reflexivity.
Qed.

End ReconcileMore.

(** ** Runs on the simulated cluster *)

Lemma reconcile_in_sync_is_noop_witness :
  simReconcile (syncedWorld "10.0.0.1") =
    (Ok tt, {| world := syncedWorld "10.0.0.1"; svcObj := trackedK8s;
               trace := [EvGet "ns" "web"; EvGetService ["kubernetes"; "u1"]] |}).
Proof.
  apply (reconcile_in_sync_is_noop simCollaborators sampleReconciler
           (syncedWorld "10.0.0.1") (syncedWorld "10.0.0.1") (syncedWorld "10.0.0.1")
           "ns" "web" trackedK8s
           (sampleService None ["10.0.0.1"] ["kubernetes"; "u1"])
           (setID (sampleService None ["10.0.0.1"] ["kubernetes"; "u1"]) "es-1"));
    vm_compute; reflexivity.
Defined.

Lemma reconcile_drift_sends_one_update_witness :
  simReconcile (syncedWorld "10.0.0.9") =
    (Ok tt,
     {| world := syncedWorld "10.0.0.9"; svcObj := trackedK8s;
        trace := [EvGet "ns" "web"; EvGetService ["kubernetes"; "u1"];
                  EvPutService "es-1"
                    (updatableOf (sampleService None ["10.0.0.1"] ["kubernetes"; "u1"]))] |}).
Proof.
  apply (proj1 (reconcile_drift_sends_one_update simCollaborators sampleReconciler
           (syncedWorld "10.0.0.9") (syncedWorld "10.0.0.9") (syncedWorld "10.0.0.9")
           "ns" "web" trackedK8s
           (sampleService None ["10.0.0.1"] ["kubernetes"; "u1"])
           (setID (sampleService None ["10.0.0.9"] ["kubernetes"; "u1"]) "es-1")
           ltac:(vm_compute; reflexivity) ltac:(vm_compute; reflexivity)
           ltac:(vm_compute; reflexivity) ltac:(vm_compute; reflexivity)
           ltac:(vm_compute; reflexivity) ltac:(vm_compute; reflexivity)
           ltac:(vm_compute; reflexivity))).
Defined.

Lemma reconcile_create_path_witness :
  exists a,
    Annotations trackedK8s = Some a /\
    simReconcile (trackedWorld false) =
      Update simCollaborators
        {| world :=
             {| cluster := Some trackedK8s;
                broker := [setID (sampleService None ["10.0.0.1"] ["kubernetes"; "u1"])
                             "es-ns-web"];
                brokerDown := false |};
           svcObj := setAnnotations trackedK8s
                       (Some (<["cloud.sap/archer-id" := "es-ns-web"]> a));
           trace := [EvGet "ns" "web"; EvGetService ["kubernetes"; "u1"];
                     EvPostService
                       (sampleService None ["10.0.0.1"] ["kubernetes"; "u1"])] |}.
Proof.
  exact (reconcile_create_path simCollaborators sampleReconciler
           (trackedWorld false) (trackedWorld false) (trackedWorld false)
           "ns" "web" trackedK8s
           (sampleService None ["10.0.0.1"] ["kubernetes"; "u1"])
           ltac:(vm_compute; reflexivity) ltac:(vm_compute; reflexivity)
           ltac:(vm_compute; reflexivity) ltac:(vm_compute; reflexivity)
           ltac:(vm_compute; reflexivity) ltac:(vm_compute; reflexivity)).
Defined.

Lemma reconcile_validation_error_after_lookup_witness :
  simReconcile portlessWorld =
    (Err (ErrNoPorts "ns" "web"),
     {| world := portlessWorld; svcObj := portlessK8s;
        trace := [EvGet "ns" "web"; EvGetService ["kubernetes"; "u1"]] |}).
Proof.
  apply (reconcile_validation_error_after_lookup simCollaborators sampleReconciler
           portlessWorld portlessWorld portlessWorld "ns" "web" portlessK8s []);
    try (vm_compute; reflexivity).
  simpl. lia.
Defined.

Lemma reconcile_lookup_failure_witness :
  simReconcile (trackedWorld true) =
    (Err (ErrApi 503),
     {| world := trackedWorld true; svcObj := trackedK8s;
        trace := [EvGet "ns" "web"; EvGetService ["kubernetes"; "u1"]] |}).
Proof.
  apply (reconcile_lookup_failure simCollaborators sampleReconciler
           (trackedWorld true) (trackedWorld true) (trackedWorld true)
           "ns" "web" trackedK8s);
    vm_compute; reflexivity.
Defined.

Lemma reconcile_load_failure_witness :
  simReconcile emptyWorld =
    (Ok tt, {| world := emptyWorld; svcObj := zeroK8sService;
               trace := [EvGet "ns" "web"] |}).
Proof.
  exact (reconcile_load_failure simCollaborators sampleReconciler
           emptyWorld emptyWorld "ns" "web" ErrNotFound eq_refl).
Defined.

Lemma reconcile_registers_finalizer_first_witness :
  Finalizers (AddFinalizer untrackedK8s "cloud.sap/finalizer") =
    [] ++ ["cloud.sap/finalizer"] /\
  simReconcile freshWorld =
    reconcileEndpointService simCollaborators sampleReconciler
      {| world := {| cluster := Some (AddFinalizer untrackedK8s "cloud.sap/finalizer");
                     broker := []; brokerDown := false |};
         svcObj := AddFinalizer untrackedK8s "cloud.sap/finalizer";
         trace := [EvGet "ns" "web";
                   EvUpdate (AddFinalizer untrackedK8s "cloud.sap/finalizer")] |}.
Proof.
  exact (reconcile_registers_finalizer_first simCollaborators sampleReconciler
           freshWorld freshWorld "ns" "web" untrackedK8s
           ltac:(vm_compute; reflexivity) ltac:(vm_compute; reflexivity)
           ltac:(vm_compute; reflexivity) ltac:(vm_compute; reflexivity)).
Defined.

Lemma reconcile_deleting_without_finalizer_witness :
  simReconcile orphanWorld =
    Update simCollaborators
      {| world := orphanWorld; svcObj := orphanK8s; trace := [EvGet "ns" "web"] |} /\
  trace (snd (simReconcile orphanWorld)) = [EvGet "ns" "web"; EvUpdate orphanK8s].
Proof.
  apply (reconcile_deleting_without_finalizer simCollaborators sampleReconciler
           orphanWorld orphanWorld "ns" "web" orphanK8s);
    vm_compute; reflexivity.
Defined.

Lemma live_object_never_deleted_witness :
  existsb isDelete (trace (snd (simReconcile (syncedWorld "10.0.0.9")))) = false.
Proof.
  apply (live_object_never_deleted simCollaborators sampleReconciler
           (syncedWorld "10.0.0.9") (syncedWorld "10.0.0.9") "ns" "web" trackedK8s);
    vm_compute; reflexivity.
Defined.

Lemma createEndpointService_nil_annotations_witness :
  createEndpointService simCollaborators sampleReconciler nilAnnotationsState =
    (Panic AssignmentToNilMap,
     {| world :=
          {| cluster := Some trackedK8s;
             broker := [setID (sampleService None ["10.0.0.1"] ["kubernetes"; "u1"])
                          "es-ns-web"];
             brokerDown := false |};
        svcObj := sampleK8s None [] None [80];
        trace := [] ++ [EvPostService
                          (sampleService None ["10.0.0.1"] ["kubernetes"; "u1"])] |}).
Proof.
  apply (createEndpointService_nil_annotations simCollaborators sampleReconciler
           nilAnnotationsState
           (sampleService None ["10.0.0.1"] ["kubernetes"; "u1"])
           (setID (sampleService None ["10.0.0.1"] ["kubernetes"; "u1"]) "es-ns-web"));
    vm_compute; reflexivity.
Defined.

Lemma zone_annotation_change_is_ignored_witness :
  fst (updateEndpointService simCollaborators sampleReconciler driftedRemote
         zoneStateChanged) =
  fst (updateEndpointService simCollaborators sampleReconciler driftedRemote zoneState) /\
  trace (snd (updateEndpointService simCollaborators sampleReconciler driftedRemote
                zoneStateChanged)) =
  trace (snd (updateEndpointService simCollaborators sampleReconciler driftedRemote
                zoneState)) /\
  world (snd (updateEndpointService simCollaborators sampleReconciler driftedRemote
                zoneStateChanged)) =
  world (snd (updateEndpointService simCollaborators sampleReconciler driftedRemote
                zoneState)).
Proof.
  exact (zone_annotation_change_is_ignored simCollaborators sampleReconciler
           zoneState {[ "cloud.sap/archer-create" := "true" ]} "az-1" driftedRemote
           eq_refl).
Defined.

(** * Annotation keys *)

(** X24. For every prefix, the eleven annotation keys and the finalizer
    name the controller builds with [makeAnnotation] are pairwise distinct. *)
Theorem annotation_keys_distinct (prefix : string) :
  List.NoDup (List.map (makeAnnotation prefix) controllerSuffixes).
Proof.
  apply Finite.Injective_map_NoDup.
  - intros a b. apply makeAnnotation_suffix_inj.
  - unfold controllerSuffixes.
    repeat (constructor; [simpl; intuition discriminate|]). constructor.
Qed.

(** X25. [getAnnotationBoolean] returns the default exactly when
    [getAnnotationString] finds no value (nil map or missing key); a value
    that is present decides alone, and only the exact string "true" counts
    as true, also against a default of true. *)
Theorem getAnnotationBoolean_by_value (key : string) (svc : K8sService) (d : bool) :
  getAnnotationBoolean key svc d =
  match getAnnotationString key svc with
  | Some v => bool_decide (v = "true")
  | None => d
  end.
Proof.
  unfold getAnnotationBoolean, getAnnotationString.
  destruct (Annotations svc) as [m|]; [|reflexivity].
  destruct (m !! key) as [v|]; [|reflexivity].
  destruct (String.eqb_spec v "true") as [->|Hne].
  - reflexivity.
  - symmetry. apply bool_decide_eq_false. exact Hne.
Qed.
